(** * FinDiscountCurveZeros: a discount curve built from zero rates

    A shallow embedding of [financepy/market/curves/FinDiscountCurveZeros.py]
    and the properties of its constructor, of [bump] and of [__repr__].

    Python objects live in a store: a curve is an object with an attribute
    dictionary, and the lists and numpy arrays it refers to are separate
    store cells, so that aliasing ([self._zeroRates = zeroRates]) and
    copying ([self._times.copy()]) are told apart.  Python floats are
    idealised as real numbers. *)

From Stdlib Require Import Reals Lra.
From stdpp Require Import gmap strings list pretty.

Open Scope string_scope.
Open Scope list_scope.

(** ** Python values, store and exceptions *)

Definition loc := nat.

(** The exceptions the module can raise.  [FinError] is the library's own
    error class, always raised with a message; the next three are Python's
    built-in ones; [InvalidTimeError] is the rejection the specification
    asks of a query at a negative time. *)
Inductive exn :=
| FinError (msg : string)
| AttributeError (name : string)
| IndexError
| TypeError
| InvalidTimeError.

(** The class of an exception, without its payload. *)
Definition exn_class (e : exn) : string :=
  match e with
  | FinError _ => "FinError"
  | AttributeError _ => "AttributeError"
  | IndexError => "IndexError"
  | TypeError => "TypeError"
  | InvalidTimeError => "InvalidTimeError"
  end.

Section Model.

(** [FinDate] is declared in [finutils/FinDate.py]; dates are only passed
    around here. *)
Context {FinDate : Type}.

Inductive pyval :=
| VNone
| VInt (z : Z)
| VFloat (x : R)
| VStr (s : string)
| VDate (d : FinDate)
| VEnum (cls name : string)   (* the member [cls.name] of an Enum class *)
| VRef (l : loc).             (* a reference to a list, an array or an object *)

Inductive cell :=
| CDates (ds : list FinDate)                       (* a list of FinDate *)
| CNums (xs : list R)                              (* a list or ndarray of floats *)
| CObj (cls : string) (attrs : gmap string pyval). (* an instance and its __dict__ *)

(** The store: a location is an index into it. *)
Abbreviation heap := (list cell).

(** Computations read and write the store and either return or raise; the
    store survives a raise. *)
Definition M (A : Type) : Type := heap -> heap * (exn + A).

#[global] Instance M_ret : MRet M := fun A (a : A) h => (h, inr a).
#[global] Instance M_bind : MBind M := fun A B (k : A -> M B) (m : M A) h =>
  match m h with
  | (h', inr a) => k a h'
  | (h', inl e) => (h', inl e)
  end.

Definition raise {A} (e : exn) : M A := fun h => (h, inl e).

(** Allocation of a new cell: the store grows at its end. *)
Definition alloc (c : cell) : M loc := fun h => (h ++ [c], inr (length h)).

(** [self.name] *)
Definition getattr (self : pyval) (name : string) : M pyval := fun h =>
  match self with
  | VRef l =>
      match h !! l with
      | Some (CObj _ attrs) =>
          match attrs !! name with
          | Some v => (h, inr v)
          | None => (h, inl (AttributeError name))
          end
      | _ => (h, inl (AttributeError name))
      end
  | _ => (h, inl (AttributeError name))
  end.

(** [self.name = v] *)
Definition setattr (self : pyval) (name : string) (v : pyval) : M unit := fun h =>
  match self with
  | VRef l =>
      match h !! l with
      | Some (CObj cls attrs) => (<[l := CObj cls (<[name := v]> attrs)]> h, inr tt)
      | _ => (h, inl (AttributeError name))
      end
  | _ => (h, inl (AttributeError name))
  end.

(** [type(self).__name__] *)
Definition type_name (self : pyval) : M string := fun h =>
  match self with
  | VRef l =>
      match h !! l with
      | Some (CObj cls _) => (h, inr cls)
      | Some (CDates _) => (h, inr "list")
      | Some (CNums _) => (h, inr "ndarray")
      | None => (h, inl TypeError)
      end
  | _ => (h, inl TypeError)
  end.

(** [len(v)] *)
Definition len (v : pyval) : M nat := fun h =>
  match v with
  | VRef l =>
      match h !! l with
      | Some (CDates ds) => (h, inr (length ds))
      | Some (CNums xs) => (h, inr (length xs))
      | _ => (h, inl TypeError)
      end
  | _ => (h, inl TypeError)
  end.

(** [v[i]] *)
Definition getitem (v : pyval) (i : nat) : M pyval := fun h =>
  match v with
  | VRef l =>
      match h !! l with
      | Some (CDates ds) =>
          match ds !! i with Some d => (h, inr (VDate d)) | None => (h, inl IndexError) end
      | Some (CNums xs) =>
          match xs !! i with Some x => (h, inr (VFloat x)) | None => (h, inl IndexError) end
      | _ => (h, inl TypeError)
      end
  | _ => (h, inl TypeError)
  end.

(** [v[i] = x], on an array of floats *)
Definition setitem (v : pyval) (i : nat) (x : R) : M unit := fun h =>
  match v with
  | VRef l =>
      match h !! l with
      | Some (CNums xs) =>
          if decide (i < length xs) then (<[l := CNums (<[i := x]> xs)]> h, inr tt)
          else (h, inl IndexError)
      | _ => (h, inl TypeError)
      end
  | _ => (h, inl TypeError)
  end.

(** [v.copy()], on an array or a list: a new one with the same elements *)
Definition copy (v : pyval) : M pyval := fun h =>
  match v with
  | VRef l =>
      match h !! l with
      | Some (CNums xs) => (h ++ [CNums xs], inr (VRef (length h)))
      | Some (CDates ds) => (h ++ [CDates ds], inr (VRef (length h)))
      | _ => (h, inl (AttributeError "copy"))
      end
  | _ => (h, inl (AttributeError "copy"))
  end.

(** A float operand; anything else is a type error. *)
Definition as_float (v : pyval) : M R :=
  match v with
  | VFloat x => mret x
  | _ => raise TypeError
  end.

(** [np.array(xs)] of a local list of floats *)
Definition np_array (xs : list R) : M pyval := l ← alloc (CNums xs); mret (VRef l).

(** [for i in range(0, n)], threading the loop's local variables [acc] *)
Fixpoint for_in {A} (idx : list nat) (body : A -> nat -> M A) (acc : A) : M A :=
  match idx with
  | [] => mret acc
  | i :: idx' => acc' ← body acc i; for_in idx' body acc'
  end.

Definition for_range {A} (n : nat) (body : A -> nat -> M A) (acc : A) : M A :=
  for_in (seq 0 n) body acc.

(** [x in cls], for an Enum class [cls] *)
Definition in_enum (cls : string) (v : pyval) : bool :=
  match v with
  | VEnum c _ => bool_decide (c = cls)
  | _ => false
  end.

(** The elements of a list or array of floats *)
Definition read_nums (v : pyval) : M (list R) := fun h =>
  match v with
  | VRef l =>
      match h !! l with
      | Some (CNums xs) => (h, inr xs)
      | _ => (h, inl TypeError)
      end
  | _ => (h, inl TypeError)
  end.

#[global] Instance Rlt_decision : RelDecision Rlt := Rlt_dec.
#[global] Instance Req_decision : EqDecision R := Req_dec_T.

Definition newline : string := String (Ascii.ascii_of_nat 10) "".

(** The members the constructor's signature names as defaults. *)
Definition ANNUAL : pyval := VEnum "FinFrequencyTypes" "ANNUAL".
Definition ACT_ACT_ISDA : pyval := VEnum "FinDayCountTypes" "ACT_ACT_ISDA".
Definition FLAT_FORWARDS : pyval := VEnum "FinInterpMethods" "FLAT_FORWARDS".

(** ** The external collaborators

    Functions the module imports and whose code is elsewhere: the
    argument-type check, the calendar's year fraction, the rate converter,
    Python's [str], the label formatter and the interpolation evaluator.
    They are parameters of everything below. *)
Class Collaborators := {
  (** [checkArgumentTypes(func, locals())]: [None] when it returns, the
      exception when it raises *)
  checkArgumentTypes : gmap string pyval -> heap -> option exn;
  (** the year fraction from the first date to the second under a day-count
      convention *)
  yearFrac : FinDate -> FinDate -> pyval -> R;
  (** [zeroToDf(r, t, frequencyType)] *)
  zeroToDf : R -> R -> pyval -> R;
  (** [str(v)] *)
  str : pyval -> string;
  (** [labelToString(label, value)] *)
  labelToString : pyval -> pyval -> string;
  (** the interpolation evaluator: method, times, discount factors, time *)
  interpolate : pyval -> list R -> list R -> R -> R
}.

Context `{Collaborators}.

(** Modelled from the spec: [timesFromDates] of
    finutils/FinHelperFunctions.py, which is not among the sources.  "Year-
    fractions are computed from (valuationDate, each observation date) under
    the day-count convention": one year fraction per date, in order, in a
    new array. *)
Definition timesFromDates (dt valuationDate dayCountType : pyval) : M pyval := fun h =>
  match dt, valuationDate with
  | VRef l, VDate vd =>
      match h !! l with
      | Some (CDates ds) => np_array (map (fun d => yearFrac vd d dayCountType) ds) h
      | _ => (h, inl TypeError)
      end
  | _, _ => (h, inl TypeError)
  end.

(** Whether each element is strictly below the next one. *)
Fixpoint increasing (x : list R) : bool :=
  match x with
  | a :: (b :: _) as tl => bool_decide (a < b)%R && increasing tl
  | _ => true
  end.

(** Modelled from the spec: [testMonotonicity] of finutils/FinMath.py, which
    is not among the sources.  "The resulting year-fraction sequence must be
    strictly monotonically increasing": the test is [True] exactly on such a
    sequence. *)
Definition testMonotonicity (x : pyval) : M bool :=
  xs ← read_nums x; mret (increasing xs).

(** Modelled from the spec: the constructor of the base class
    [FinDiscountCurve] (market/curves/FinDiscountCurve.py, not among the
    sources), called with a valuation date, times, discount factors and an
    interpolation method.  The base curve "holds an ordered point list and an
    interpolation method selector": the new object keeps the four arguments,
    under the names the derived class uses.  Whether the base class keeps
    anything else is not described; nothing below depends on it. *)
Definition FinDiscountCurve (valuationDate times discountFactors interpMethod : pyval)
  : M pyval :=
  l ← alloc (CObj "FinDiscountCurve" ∅);
  let self := VRef l in
  setattr self "_valuationDate" valuationDate;;
  setattr self "_times" times;;
  setattr self "_dfValues" discountFactors;;
  setattr self "_interpMethod" interpMethod;;
  mret self.

(** Modelled from the spec: [getDiscountFactor] of the base class (not among
    the sources): rejects a negative time, "at t = 0 returns exactly 1", and
    otherwise evaluates the configured interpolation method on the curve
    points. *)
Definition getDiscountFactor (self : pyval) (t : R) : M R :=
  if decide (t < 0)%R then raise InvalidTimeError
  else if decide (t = 0%R) then mret 1%R
  else
    times ← getattr self "_times" ≫= read_nums;
    dfs ← getattr self "_dfValues" ≫= read_nums;
    interpMethod ← getattr self "_interpMethod";
    mret (interpolate interpMethod times dfs t).

(** ** The class FinDiscountCurveZeros *)

(** [locals()] on entry of [__init__] *)
Definition init_locals
    (self valuationDate zeroDates zeroRates frequencyType dayCountType interpMethod : pyval)
  : gmap string pyval :=
  {[ "self" := self; "valuationDate" := valuationDate; "zeroDates" := zeroDates;
     "zeroRates" := zeroRates; "frequencyType" := frequencyType;
     "dayCountType" := dayCountType; "interpMethod" := interpMethod ]}.

Definition check_argument_types (locals : gmap string pyval) : M unit := fun h =>
  match checkArgumentTypes locals h with
  | None => (h, inr tt)
  | Some e => (h, inl e)
  end.

(** Hidden function to extract discount factors from zero rates. *)
Definition _buildCurvePoints (self : pyval) : M unit :=
  times ← getattr self "_times";
  numTimes ← len times;
  dfValues ← for_range numTimes (fun dfValues i =>
    t ← getattr self "_times" ≫= (fun a => getitem a i);
    r ← getattr self "_zeroRates" ≫= (fun a => getitem a i);
    f ← getattr self "_frequencyType";
    r ← as_float r;
    t ← as_float t;
    mret (dfValues ++ [zeroToDf r t f])) [];
  a ← np_array dfValues;
  setattr self "_dfValues" a.

Definition __init__
    (self valuationDate zeroDates zeroRates frequencyType dayCountType interpMethod : pyval)
  : M unit :=
  check_argument_types
    (init_locals self valuationDate zeroDates zeroRates frequencyType dayCountType
       interpMethod);;
  n ← len zeroDates;
  if decide (n = 0) then raise (FinError "Dates has zero length") else
  n ← len zeroDates;
  m ← len zeroRates;
  if decide (n ≠ m) then raise (FinError "Dates and Rates are not the same length") else
  if negb (in_enum "FinFrequencyTypes" frequencyType)
  then raise (FinError ("Unknown Frequency type " +:+ str frequencyType)) else
  if negb (in_enum "FinDayCountTypes" dayCountType)
  then raise (FinError ("Unknown Cap Floor DayCountRule type " +:+ str dayCountType)) else
  setattr self "_valuationDate" valuationDate;;
  setattr self "_frequencyType" frequencyType;;
  setattr self "_dayCountType" dayCountType;;
  setattr self "_interpMethod" interpMethod;;
  times ← timesFromDates zeroDates valuationDate dayCountType;
  setattr self "_times" times;;
  setattr self "_zeroRates" zeroRates;;
  setattr self "_zeroDates" zeroDates;;
  mono ← getattr self "_times" ≫= testMonotonicity;
  if negb mono
  then raise (FinError "Times or dates are not sorted in increasing order") else
  _buildCurvePoints self.

(** The call [FinDiscountCurveZeros(...)]: a new instance, initialised. *)
Definition FinDiscountCurveZeros
    (valuationDate zeroDates zeroRates frequencyType dayCountType interpMethod : pyval)
  : M pyval :=
  l ← alloc (CObj "FinDiscountCurveZeros" ∅);
  __init__ (VRef l) valuationDate zeroDates zeroRates frequencyType dayCountType
    interpMethod;;
  mret (VRef l).

Definition bump (self : pyval) (bumpSize : R) : M pyval :=
  times ← getattr self "_times" ≫= copy;
  discountFactors ← getattr self "_discountFactors" ≫= copy;
  n ← getattr self "_times" ≫= len;
  for_range n (fun _ i =>
    t ← getitem times i ≫= as_float;
    d ← getitem discountFactors i ≫= as_float;
    setitem discountFactors i (d * exp (- bumpSize * t))%R) tt;;
  valuationDate ← getattr self "_valuationDate";
  interpMethod ← getattr self "_interpMethod";
  FinDiscountCurve valuationDate times discountFactors interpMethod.

Definition __repr__ (self : pyval) : M string :=
  name ← type_name self;
  let s := name +:+ newline in
  numPoints ← getattr self "_times" ≫= len;
  let s := s +:+ labelToString (VStr "DATES") (VStr "ZERO RATES") in
  s ← for_range numPoints (fun s i =>
    d ← getattr self "_zeroDates" ≫= (fun a => getitem a i);
    r ← getattr self "_zeroRates" ≫= (fun a => getitem a i);
    mret (s +:+ labelToString d r)) s;
  f ← getattr self "_frequencyType";
  mret (s +:+ labelToString (VStr "FREQUENCY") f).

(** Simple print function.  [print(self)] writes the rendering and a line
    break to the standard output and the method returns [None]: the text
    written comes first, the value returned second. *)
Definition print (self : pyval) : M (string * pyval) :=
  s ← __repr__ self;
  mret (s +:+ newline, VNone).

(** ** The constructor's outcome, as a function of its arguments

    What the constructor call yields on a store [h], read off the store
    without running the call: the exception of the first check that fails,
    or the times and the discount factors of the new curve.  [chk] is the
    verdict of the argument-type check. *)

Definition seq_len (h : heap) (v : pyval) : option nat :=
  match v with
  | VRef l =>
      match h !! l with
      | Some (CDates ds) => Some (length ds)
      | Some (CNums xs) => Some (length xs)
      | _ => None
      end
  | _ => None
  end.

Definition dates_of (h : heap) (v : pyval) : option (list FinDate) :=
  match v with
  | VRef l => match h !! l with Some (CDates ds) => Some ds | _ => None end
  | _ => None
  end.

Definition nums_of (h : heap) (v : pyval) : option (list R) :=
  match v with
  | VRef l => match h !! l with Some (CNums xs) => Some xs | _ => None end
  | _ => None
  end.

Definition year_fractions (vd : FinDate) (ds : list FinDate) (dayCountType : pyval)
  : list R :=
  map (fun d => yearFrac vd d dayCountType) ds.

Definition discount_factors (rs ts : list R) (frequencyType : pyval) : list R :=
  zip_with (fun r t => zeroToDf r t frequencyType) rs ts.

Definition construction
    (chk : option exn) (h : heap)
    (valuationDate zeroDates zeroRates frequencyType dayCountType : pyval)
  : exn + (list R * list R) :=
  match chk with
  | Some e => inl e
  | None =>
  match seq_len h zeroDates with
  | None => inl TypeError
  | Some n =>
  if decide (n = 0) then inl (FinError "Dates has zero length") else
  match seq_len h zeroRates with
  | None => inl TypeError
  | Some m =>
  if decide (n ≠ m) then inl (FinError "Dates and Rates are not the same length") else
  if negb (in_enum "FinFrequencyTypes" frequencyType)
  then inl (FinError ("Unknown Frequency type " +:+ str frequencyType)) else
  if negb (in_enum "FinDayCountTypes" dayCountType)
  then inl (FinError ("Unknown Cap Floor DayCountRule type " +:+ str dayCountType)) else
  match dates_of h zeroDates, valuationDate with
  | Some ds, VDate vd =>
      let times := year_fractions vd ds dayCountType in
      if negb (increasing times)
      then inl (FinError "Times or dates are not sorted in increasing order") else
      match nums_of h zeroRates with
      | Some rs => inr (times, discount_factors rs times frequencyType)
      | None => inl TypeError
      end
  | _, _ => inl TypeError
  end
  end
  end
  end.

(** The attribute dictionary of a curve the constructor has built, with its
    times at [lt] and its discount factors at [ldf]. *)
Definition curve_attrs
    (valuationDate zeroDates zeroRates frequencyType dayCountType interpMethod : pyval)
    (lt ldf : loc) : gmap string pyval :=
  <["_dfValues" := VRef ldf]> (
  <["_zeroDates" := zeroDates]> (
  <["_zeroRates" := zeroRates]> (
  <["_times" := VRef lt]> (
  <["_interpMethod" := interpMethod]> (
  <["_dayCountType" := dayCountType]> (
  <["_frequencyType" := frequencyType]> (
  <["_valuationDate" := valuationDate]> ∅))))))).

(** The verdict of the argument-type check for a constructor call made on
    the store [h]: the new instance is the cell after the last one. *)
Definition argument_check
    (h : heap)
    (valuationDate zeroDates zeroRates frequencyType dayCountType interpMethod : pyval)
  : option exn :=
  checkArgumentTypes
    (init_locals (VRef (length h)) valuationDate zeroDates zeroRates frequencyType
       dayCountType interpMethod)
    (h ++ [CObj "FinDiscountCurveZeros" ∅]).

(** The store after a constructor call on [h] that returns: the curve, its
    times and its discount factors are three new cells. *)
Definition new_curve
    (h : heap)
    (valuationDate zeroDates zeroRates frequencyType dayCountType interpMethod : pyval)
    (times dfs : list R) : heap :=
  h ++ [CObj "FinDiscountCurveZeros"
          (curve_attrs valuationDate zeroDates zeroRates frequencyType dayCountType
             interpMethod (length h + 1) (length h + 2));
        CNums times; CNums dfs].

(** The attribute dictionary the base-class constructor fills. *)
Definition base_attrs (valuationDate times discountFactors interpMethod : pyval)
  : gmap string pyval :=
  <["_interpMethod" := interpMethod]> (
  <["_dfValues" := discountFactors]> (
  <["_times" := times]> (
  <["_valuationDate" := valuationDate]> ∅))).

(** The value of an attribute, and the array or list it refers to. *)
Definition field (h : heap) (self : pyval) (name : string) : option pyval :=
  match snd (getattr self name h) with
  | inr v => Some v
  | inl _ => None
  end.

Definition field_nums (h : heap) (self : pyval) (name : string) : option (list R) :=
  field h self name ≫= nums_of h.

Definition field_dates (h : heap) (self : pyval) (name : string)
  : option (list FinDate) :=
  field h self name ≫= dates_of h.

(** The lines of the rendering that show the observations. *)
Definition observation_lines (ds : list FinDate) (rs : list R) : string :=
  foldr String.append ""
    (zip_with (fun d r => labelToString (VDate d) (VFloat r)) ds rs).

(** The discount factors [bump] is meant to produce. *)
Definition scaled (bumpSize : R) (dfs ts : list R) : list R :=
  zip_with (fun d t => d * exp (- bumpSize * t))%R dfs ts.

(** ** The bodies of the three loops, and the frame of a computation *)

Definition build_body (self : pyval) : list R -> nat -> M (list R) :=
  fun dfValues i =>
    t ← getattr self "_times" ≫= (fun a => getitem a i);
    r ← getattr self "_zeroRates" ≫= (fun a => getitem a i);
    f ← getattr self "_frequencyType";
    r ← as_float r;
    t ← as_float t;
    mret (dfValues ++ [zeroToDf r t f]).

Definition repr_body (self : pyval) : string -> nat -> M string :=
  fun s i =>
    d ← getattr self "_zeroDates" ≫= (fun a => getitem a i);
    r ← getattr self "_zeroRates" ≫= (fun a => getitem a i);
    mret (s +:+ labelToString d r).

Definition bump_body (times discountFactors : pyval) (bumpSize : R)
  : () -> nat -> M () :=
  fun _ i =>
    t ← getitem times i ≫= as_float;
    d ← getitem discountFactors i ≫= as_float;
    setitem discountFactors i (d * exp (- bumpSize * t))%R.

(** The discount factors once the loop of [bump] has treated the indices
    below [a]. *)
Definition scaled_upto (bumpSize : R) (dfs ts : list R) (a : nat) : list R :=
  scaled bumpSize (take a dfs) (take a ts) ++ drop a dfs.

(** A reference to a cell at or above [n]. *)
Definition fresh_ref (n : nat) (v : pyval) : Prop := exists l, v = VRef l /\ n <= l.

(** [frames n m Q]: on a store of at least [n] cells, [m] leaves the first
    [n] cells as they are and never shrinks the store, and what it returns
    satisfies [Q]. *)
Definition frames {A} (n : nat) (m : M A) (Q : A -> Prop) : Prop :=
  forall h, n <= length h ->
    take n (m h).1 = take n h /\ length h <= length (m h).1 /\
    forall a, (m h).2 = inr a -> Q a.

(** A computation that does not write. *)
Definition reads_only {A} (m : M A) : Prop := forall h, (m h).1 = h.

End Model.

Arguments pyval : clear implicits.
Arguments cell : clear implicits.
Arguments M : clear implicits.
Arguments Collaborators : clear implicits.

(** ** Stand-ins for the collaborators, and the example of the specification

    Dates are day numbers.  The year fraction is the number of days from the
    first date to the second over 365, negative when the second date is the
    earlier one; the rate converter compounds annually, as in the end-to-end
    example; every call passes the argument-type check; a label line reads
    [label: value]; the interpolation evaluator is not exercised and answers
    the first discount factor. *)

Definition example_yearFrac (v d : Z) (dayCountType : pyval Z) : R :=
  (IZR (d - v) / 365)%R.

Definition example_zeroToDf (r t : R) (frequencyType : pyval Z) : R :=
  Rpower (1 + r) (- t).

Definition example_str (v : pyval Z) : string :=
  match v with
  | VNone => "None"
  | VInt z => pretty z
  | VFloat _ => "<float>"
  | VStr s => s
  | VDate d => pretty d
  | VEnum cls name => cls +:+ "." +:+ name
  | VRef _ => "<object>"
  end.

Definition example_labelToString (label value : pyval Z) : string :=
  example_str label +:+ ": " +:+ example_str value +:+ newline.

#[global] Instance example_collaborators : Collaborators Z := {|
  checkArgumentTypes := fun _ _ => None;
  yearFrac := example_yearFrac;
  zeroToDf := example_zeroToDf;
  str := example_str;
  labelToString := example_labelToString;
  interpolate := fun _ _ dfs _ => hd 1%R dfs
|}.

(** Valuation date day 0 (2020-01-01); observations on days 366 and 731
    (2021-01-01 and 2022-01-01) at rates 0.02 and 0.025. *)
Definition example_store : list (cell Z) :=
  [CDates [366; 731]%Z; CNums [2 / 100; 25 / 1000]%R].

Definition example_times : list R := year_fractions 0%Z [366; 731]%Z ACT_ACT_ISDA.

Definition example_dfs : list R :=
  discount_factors [2 / 100; 25 / 1000]%R example_times ANNUAL.

(** The store once the curve of the example is built: the curve is cell 2. *)
Definition example_curve_store : list (cell Z) :=
  new_curve example_store (VDate 0%Z) (VRef 0) (VRef 1) ANNUAL ACT_ACT_ISDA FLAT_FORWARDS
    example_times example_dfs.

(** The first observation a year before the valuation date: days -365 and
    366 (2019-01-01 and 2021-01-01) for the valuation date day 0. *)
Definition example_past_store : list (cell Z) :=
  [CDates [-365; 366]%Z; CNums [2 / 100; 25 / 1000]%R].

Definition example_past_times : list R := year_fractions 0%Z [-365; 366]%Z ACT_ACT_ISDA.

(** No observation at all, and three dates for two rates. *)
Definition example_empty_store : list (cell Z) := [CDates []; CNums []].

Definition example_mismatch_store : list (cell Z) :=
  [CDates [366; 731; 1096]%Z; CNums [2 / 100; 25 / 1000]%R].

(** An instance to which [_discountFactors] has been assigned, with its two
    arrays: the only kind of object on which [bump] runs to its end. *)
Definition example_patched_store : list (cell Z) :=
  [CNums [1; 2]%R; CNums [98 / 100; 95 / 100]%R;
   CObj "FinDiscountCurveZeros"
     (<["_discountFactors" := VRef 1]> (
      <["_interpMethod" := FLAT_FORWARDS]> (
      <["_times" := VRef 0]> (
      <["_valuationDate" := VDate 0%Z]> ∅))))].

(** The store after [bump] with shift 0.01 on that instance: the copy of
    the times, the scaled copy of the discount factors and the new curve, which
    is cell 5. *)
Definition example_shifted_store : list (cell Z) :=
  example_patched_store ++
  [CNums [1; 2]%R;
   CNums (scaled (1 / 100) [98 / 100; 95 / 100]%R [1; 2]%R);
   CObj "FinDiscountCurve" (base_attrs (VDate 0%Z) (VRef 3) (VRef 4) FLAT_FORWARDS)].

(** An instance with one discount factor for two times. *)
Definition example_short_store : list (cell Z) :=
  [CNums [1; 2]%R; CNums [98 / 100]%R;
   CObj "FinDiscountCurveZeros"
     (<["_discountFactors" := VRef 1]> (
      <["_interpMethod" := FLAT_FORWARDS]> (
      <["_times" := VRef 0]> (
      <["_valuationDate" := VDate 0%Z]> ∅))))].

(** A curve of two times whose retained lists have since grown to three
    elements, and one whose retained lists have shrunk to one. *)
Definition example_grown_store : list (cell Z) :=
  [CDates [366; 731; 1096]%Z; CNums [2 / 100; 25 / 1000; 3 / 100]%R;
   CObj "FinDiscountCurveZeros"
     (<["_zeroDates" := VRef 0]> (
      <["_zeroRates" := VRef 1]> (
      <["_times" := VRef 3]> (
      <["_frequencyType" := ANNUAL]> ∅))));
   CNums [1; 2]%R].

Definition example_shrunk_store : list (cell Z) :=
  [CDates [366]%Z; CNums [2 / 100]%R;
   CObj "FinDiscountCurveZeros"
     (<["_zeroDates" := VRef 0]> (
      <["_zeroRates" := VRef 1]> (
      <["_times" := VRef 3]> (
      <["_frequencyType" := ANNUAL]> ∅))));
   CNums [1; 2]%R].

(** Stand-ins that differ from the former ones in the argument-type check:
    it holds [interpMethod] to the annotation of the constructor's signature,
    [interpMethod: FinInterpMethods], and rejects a value that is no member of
    that enumeration. *)
Definition strict_checkArgumentTypes
    (locals : gmap string (pyval Z)) (h : list (cell Z)) : option exn :=
  match locals !! "interpMethod" with
  | Some v =>
      if in_enum "FinInterpMethods" v then None
      else Some (FinError "Argument Type Error")
  | None => Some (FinError "Argument Type Error")
  end.

Definition strict_collaborators : Collaborators Z := {|
  checkArgumentTypes := strict_checkArgumentTypes;
  yearFrac := example_yearFrac;
  zeroToDf := example_zeroToDf;
  str := example_str;
  labelToString := example_labelToString;
  interpolate := fun _ _ dfs _ => hd 1%R dfs
|}.

(** * Proofs *)

Section Proofs.

Context {FinDate : Type} `{E : Collaborators FinDate}.

Abbreviation pyval := (pyval FinDate).
Abbreviation heap := (list (cell FinDate)).
Abbreviation cell := (cell FinDate).
Abbreviation M := (M FinDate).
Abbreviation frames := (@frames FinDate _).
Abbreviation reads_only := (@reads_only FinDate _).
Implicit Types (h k : heap) (v self : pyval) (l : loc) (c : cell).

(** ** Running a computation step by step *)

Lemma bind_unfold {A B} (m : M A) (f : A -> M B) h :
  (m ≫= f) h = match m h with (h', inr a) => f a h' | (h', inl e) => (h', inl e) end.
Proof. reflexivity. Qed.

Lemma lookup_new h k i : (h ++ k) !! (length h + i) = k !! i.
Proof. rewrite lookup_app_r by lia. f_equal. lia. Qed.

Lemma getattr_run h l cls attrs name :
  h !! l = Some (CObj cls attrs) ->
  getattr (VRef l) name h =
    (h, match attrs !! name with Some v => inr v | None => inl (AttributeError name) end).
Proof. intros Hl. unfold getattr. rewrite Hl. destruct (attrs !! name); reflexivity. Qed.

Lemma setattr_run h l cls attrs name v :
  h !! l = Some (CObj cls attrs) ->
  setattr (VRef l) name v h = (<[l := CObj cls (<[name := v]> attrs)]> h, inr tt).
Proof. intros Hl. unfold setattr. rewrite Hl. reflexivity. Qed.

Lemma seq_len_app h k v n : seq_len h v = Some n -> seq_len (h ++ k) v = Some n.
Proof.
  destruct v; try discriminate. simpl.
  destruct (h !! l) eqn:Hl; try discriminate.
  rewrite (lookup_app_l_Some _ _ _ _ Hl). auto.
Qed.

Lemma len_seq_len h v :
  len v h = (h, match seq_len h v with Some n => inr n | None => inl TypeError end).
Proof.
  destruct v; try reflexivity. simpl.
  destruct (h !! l) as [[]|]; reflexivity.
Qed.

Lemma seq_len_new_obj h cls attrs v :
  seq_len (h ++ [CObj cls attrs]) v = seq_len h v.
Proof.
  destruct v; try reflexivity. simpl.
  destruct (decide (l < length h)) as [Hlt|Hge].
  - rewrite lookup_app_l by done. reflexivity.
  - rewrite lookup_app_r by lia. rewrite (lookup_ge_None_2 h) by lia.
    destruct (l - length h) as [|[|?]]; reflexivity.
Qed.


Lemma dates_of_new_obj h cls attrs v :
  dates_of (h ++ [CObj cls attrs]) v = dates_of h v.
Proof.
  destruct v; try reflexivity. simpl.
  destruct (decide (l < length h)) as [Hlt|Hge].
  - rewrite lookup_app_l by done. reflexivity.
  - rewrite lookup_app_r by lia. rewrite (lookup_ge_None_2 h) by lia.
    destruct (l - length h) as [|[|?]]; reflexivity.
Qed.

Lemma nums_of_app h k v xs : nums_of h v = Some xs -> nums_of (h ++ k) v = Some xs.
Proof.
  destruct v; try discriminate. simpl.
  destruct (h !! l) eqn:Hl; try discriminate.
  rewrite (lookup_app_l_Some _ _ _ _ Hl). auto.
Qed.

Lemma timesFromDates_run h zd vd dc :
  timesFromDates zd vd dc h =
    match dates_of h zd, vd with
    | Some ds, VDate d0 => (h ++ [CNums (year_fractions d0 ds dc)], inr (VRef (length h)))
    | _, _ => (h, inl TypeError)
    end.
Proof.
  unfold timesFromDates, dates_of.
  destruct zd; try reflexivity.
  { destruct (h !! l) as [[]|]; destruct vd; reflexivity. }
Qed.

Lemma read_nums_run h v :
  read_nums v h = (h, match nums_of h v with Some xs => inr xs | None => inl TypeError end).
Proof.
  destruct v; try reflexivity. simpl. destruct (h !! l) as [[]|]; reflexivity.
Qed.

Lemma getitem_nums h v xs i x :
  nums_of h v = Some xs -> xs !! i = Some x -> getitem v i h = (h, inr (VFloat x)).
Proof.
  destruct v; try discriminate. simpl.
  destruct (h !! l) as [[]|]; try discriminate. intros [= ->] ->. reflexivity.
Qed.

Lemma getitem_dates h v ds i d :
  dates_of h v = Some ds -> ds !! i = Some d -> getitem v i h = (h, inr (VDate d)).
Proof.
  destruct v; try discriminate. simpl.
  destruct (h !! l) as [[]|]; try discriminate. intros [= ->] ->. reflexivity.
Qed.

Lemma build_loop h l cls attrs vt vr f ts rs :
  h !! l = Some (CObj cls attrs) ->
  attrs !! "_times" = Some vt -> attrs !! "_zeroRates" = Some vr ->
  attrs !! "_frequencyType" = Some f ->
  nums_of h vt = Some ts -> nums_of h vr = Some rs ->
  forall n a acc, a + n <= length ts -> a + n <= length rs ->
  for_in (seq a n) (build_body (VRef l)) acc h =
    (h, inr (acc ++ discount_factors (take n (drop a rs)) (take n (drop a ts)) f)).
Proof.
  intros Hl Ht Hr Hf Hts Hrs. induction n as [|n IH]; intros a acc Hat Har.
  - simpl. rewrite app_nil_r. reflexivity.
  - destruct (lookup_lt_is_Some_2 ts a) as [t Hta]; [lia|].
    destruct (lookup_lt_is_Some_2 rs a) as [r Hra]; [lia|].
    rewrite (drop_S _ _ _ Hta), (drop_S _ _ _ Hra).
    cbn [seq for_in take]. rewrite bind_unfold. unfold build_body at 1.
    rewrite bind_unfold, bind_unfold, (getattr_run _ _ _ _ _ Hl), Ht.
    cbv beta iota. rewrite (getitem_nums _ _ _ _ _ Hts Hta).
    cbv beta iota. rewrite bind_unfold, bind_unfold, (getattr_run _ _ _ _ _ Hl), Hr.
    cbv beta iota. rewrite (getitem_nums _ _ _ _ _ Hrs Hra).
    cbv beta iota. rewrite bind_unfold, (getattr_run _ _ _ _ _ Hl), Hf.
    cbv beta iota. unfold as_float. rewrite bind_unfold. unfold mret at 1, M_ret at 1.
    cbv beta iota. rewrite bind_unfold. unfold mret at 1, M_ret at 1.
    cbv beta iota. unfold mret at 1, M_ret at 1.
    rewrite IH by lia. unfold discount_factors. cbn [zip_with].
    rewrite <- app_assoc. reflexivity.
Qed.


Lemma insert_new0 h c c0 k : <[length h := c]> (h ++ c0 :: k) = h ++ c :: k.
Proof.
  replace (length h) with (length h + 0) by lia. rewrite insert_app_r. reflexivity.
Qed.

Lemma lookup_new0 h c k : (h ++ c :: k) !! length h = Some c.
Proof. apply list_lookup_middle. reflexivity. Qed.

Lemma lookup_new1 h c0 c k : (h ++ c0 :: c :: k) !! (length h + 1) = Some c.
Proof. rewrite lookup_new. reflexivity. Qed.

Lemma buildCurvePoints_run h l cls attrs vt zr f ts rs :
  h !! l = Some (CObj cls attrs) ->
  attrs !! "_times" = Some vt -> attrs !! "_zeroRates" = Some zr ->
  attrs !! "_frequencyType" = Some f ->
  nums_of h vt = Some ts -> nums_of h zr = Some rs ->
  length ts = length rs ->
  _buildCurvePoints (VRef l) h =
    (<[l := CObj cls (<["_dfValues" := VRef (length h)]> attrs)]>
       (h ++ [CNums (discount_factors rs ts f)]), inr tt).
Proof.
  intros Hl Ht Hr Hf Hts Hrs Hlen. unfold _buildCurvePoints.
  rewrite bind_unfold, (getattr_run _ _ _ _ _ Hl), Ht. cbv beta iota.
  rewrite bind_unfold, len_seq_len.
  assert (seq_len h vt = Some (length ts)) as ->.
  { destruct vt; try discriminate. simpl in *.
    destruct (h !! l0) as [[]|]; try discriminate. congruence. }
  cbv beta iota. rewrite bind_unfold. unfold for_range.
  pose proof (build_loop h l cls attrs vt zr f ts rs Hl Ht Hr Hf Hts Hrs
                (length ts) 0 []) as HL.
  unfold build_body in HL. rewrite HL by lia. clear HL.
  cbv beta iota. rewrite !drop_0, firstn_all, Hlen, firstn_all.
  rewrite app_nil_l, bind_unfold. unfold np_array.
  rewrite bind_unfold. unfold alloc at 1. cbv beta iota.
  unfold mret at 1, M_ret at 1.
  rewrite (setattr_run _ l cls attrs) by (apply lookup_app_l_Some; exact Hl).
  reflexivity.
Qed.

Lemma buildCurvePoints_dates h l cls attrs vt zr (f : pyval) ts ds :
  h !! l = Some (CObj cls attrs) ->
  attrs !! "_times" = Some vt -> attrs !! "_zeroRates" = Some zr ->
  attrs !! "_frequencyType" = Some f ->
  nums_of h vt = Some ts -> dates_of h zr = Some ds ->
  length ts = length ds -> length ts <> 0 ->
  snd (_buildCurvePoints (VRef l) h) = inl TypeError.
Proof.
  intros Hl Ht Hr Hf Hts Hds Hlen Hne. unfold _buildCurvePoints.
  rewrite bind_unfold, (getattr_run _ _ _ _ _ Hl), Ht. cbv beta iota.
  rewrite bind_unfold, len_seq_len.
  assert (seq_len h vt = Some (length ts)) as ->.
  { destruct vt; try discriminate. simpl in *.
    destruct (h !! l0) as [[]|]; try discriminate. congruence. }
  cbv beta iota. rewrite bind_unfold. unfold for_range.
  destruct ts as [|t ts]; [done|]. destruct ds as [|d ds]; [done|].
  cbn [length seq for_in].
  rewrite !bind_unfold, (getattr_run _ _ _ _ _ Hl), Ht. cbv beta iota.
  rewrite (getitem_nums _ _ _ 0 t Hts) by reflexivity. cbv beta iota.
  rewrite !bind_unfold, (getattr_run _ _ _ _ _ Hl), Hr. cbv beta iota.
  rewrite (getitem_dates _ _ _ 0 d Hds) by reflexivity. cbv beta iota.
  rewrite !bind_unfold, (getattr_run _ _ _ _ _ Hl), Hf. reflexivity.
Qed.


Lemma dates_of_app h k v ds : dates_of h v = Some ds -> dates_of (h ++ k) v = Some ds.
Proof.
  destruct v; try discriminate. simpl.
  destruct (h !! l) eqn:Hl; try discriminate.
  rewrite (lookup_app_l_Some _ _ _ _ Hl). auto.
Qed.

Lemma seq_len_dates h v ds : dates_of h v = Some ds -> seq_len h v = Some (length ds).
Proof.
  destruct v; try discriminate. simpl.
  destruct (h !! l) as [[]|]; try discriminate. congruence.
Qed.

Lemma seq_len_nums h v xs : nums_of h v = Some xs -> seq_len h v = Some (length xs).
Proof.
  destruct v; try discriminate. simpl.
  destruct (h !! l) as [[]|]; try discriminate. congruence.
Qed.

Lemma seq_len_cases h v n :
  seq_len h v = Some n ->
  (exists ds, dates_of h v = Some ds /\ nums_of h v = None /\ length ds = n) \/
  (exists xs, nums_of h v = Some xs /\ dates_of h v = None /\ length xs = n).
Proof.
  destruct v; try discriminate. simpl.
  destruct (h !! l) as [[]|]; try discriminate; intros [= <-]; eauto.
Qed.

(** An attribute assignment on the cell allocated last. *)
Ltac set_step :=
  rewrite bind_unfold; erewrite setattr_run by apply lookup_new0;
  rewrite insert_new0; cbv beta iota.

(** The constructor call refines [construction]: whatever holds of the
    outcome [construction] predicts holds of the call.  When an exception is
    predicted the store the call leaves is not described. *)
Lemma constructor_run vd zd zr f dc im h (P : heap * (exn + pyval) -> Prop) :
  match construction (argument_check h vd zd zr f dc im) h vd zd zr f dc with
  | inl e => forall h', P (h', inl e)
  | inr (times, dfs) => P (new_curve h vd zd zr f dc im times dfs, inr (VRef (length h)))
  end ->
  P (FinDiscountCurveZeros vd zd zr f dc im h).
Proof.
  unfold FinDiscountCurveZeros, construction, argument_check. intros HP.
  rewrite bind_unfold. unfold alloc at 1. cbv beta iota.
  rewrite bind_unfold. unfold __init__.
  rewrite bind_unfold. unfold check_argument_types at 1.
  destruct (checkArgumentTypes _ _) as [e|]; [apply HP|]. cbv beta iota.
  rewrite bind_unfold, len_seq_len, seq_len_new_obj.
  destruct (seq_len h zd) as [n|] eqn:Hzd; [|apply HP]. cbv beta iota.
  destruct (decide (n = 0)) as [|Hn]; [apply HP|].
  rewrite bind_unfold, len_seq_len, seq_len_new_obj, Hzd. cbv beta iota.
  rewrite bind_unfold, len_seq_len, seq_len_new_obj.
  destruct (seq_len h zr) as [m|] eqn:Hzr; [|apply HP]. cbv beta iota.
  destruct (decide (n ≠ m)) as [|Hnm]; [apply HP|].
  apply dec_stable in Hnm. subst m.
  destruct (in_enum "FinFrequencyTypes" f) eqn:Hf; cbn [negb] in *; [|apply HP].
  destruct (in_enum "FinDayCountTypes" dc) eqn:Hdc; cbn [negb] in *; [|apply HP].
  do 4 set_step.
  rewrite bind_unfold, timesFromDates_run, dates_of_new_obj.
  destruct (dates_of h zd) as [ds|] eqn:Hds; [|apply HP].
  destruct vd as [| | | |vd| |]; try apply HP. cbv beta iota.
  rewrite <- app_assoc. cbn [app]. rewrite length_app. cbn [length].
  do 3 set_step.
  rewrite bind_unfold, bind_unfold.
  erewrite getattr_run by apply lookup_new0.
  match goal with |- context [ ?a !! "_times" ] =>
    change (a !! "_times") with (Some (VRef (length h + 1) : pyval)) end.
  cbv beta iota. unfold testMonotonicity. rewrite bind_unfold, read_nums_run.
  cbn [nums_of]. rewrite lookup_new1. cbv beta iota. unfold mret at 1, M_ret at 1.
  destruct (increasing (year_fractions vd ds dc)) eqn:Hinc; cbn [negb] in *; [|apply HP].
  pose proof (seq_len_dates _ _ _ Hds) as Hlen. rewrite Hzd in Hlen.
  injection Hlen as ->.
  destruct (seq_len_cases _ _ _ Hzr) as [(rs & Hrd & Hrn & Hrl)|(rs & Hrn & Hrd & Hrl)];
    rewrite Hrn in HP.
  - match goal with |- context [ _buildCurvePoints ?s ?H ] =>
      assert (snd (_buildCurvePoints s H) = inl TypeError) as HB;
      [ apply (buildCurvePoints_dates H (length h) _ _ (VRef (length h + 1)) zr f
                 (year_fractions vd ds dc) rs (lookup_new0 _ _ _)
                 eq_refl eq_refl eq_refl)
      | destruct (_buildCurvePoints s H) as [h' [e|[]]] ]
    end.
    + cbn [nums_of]. rewrite lookup_new1. reflexivity.
    + apply dates_of_app. exact Hrd.
    + unfold year_fractions. rewrite length_map. congruence.
    + unfold year_fractions. rewrite length_map. exact Hn.
    + cbn [snd] in HB. injection HB as ->. apply HP.
    + discriminate HB.
  - erewrite buildCurvePoints_run;
      [|apply lookup_new0|reflexivity|reflexivity|reflexivity| | |].
    + cbv beta iota. unfold mret, M_ret.
      rewrite length_app. cbn [length].
      rewrite <- app_assoc. cbn [app]. rewrite insert_new0. exact HP.
    + cbn [nums_of]. rewrite lookup_new1. reflexivity.
    + apply nums_of_app. exact Hrn.
    + unfold year_fractions. rewrite length_map. congruence.
Qed.


(** ** Which cells a computation can write *)

Lemma frames_ret {A} n (a : A) (Q : A -> Prop) : Q a -> frames n (mret a : M A) Q.
Proof. intros HQ h Hn. cbn. repeat split; auto. congruence. Qed.

Lemma frames_bind {A B} n (m : M A) (f : A -> M B) (Q : A -> Prop) (Q' : B -> Prop) :
  frames n m Q -> (forall a, Q a -> frames n (f a) Q') -> frames n (m ≫= f) Q'.
Proof.
  intros Hm Hf h Hn. rewrite bind_unfold.
  destruct (Hm h Hn) as (Ht & Hl & HQ).
  destruct (m h) as [h1 [e|a]]; cbn [fst snd] in *.
  - repeat split; auto. discriminate.
  - destruct (Hf a (HQ a eq_refl) h1) as (Ht' & Hl' & HQ'); [lia|].
    repeat split; [congruence|lia|auto].
Qed.

Lemma frames_pure {A} n (m : M A) :
  (forall h, (m h).1 = h) -> frames n m (fun _ => True).
Proof. intros Hm h Hn. rewrite Hm. auto. Qed.

Lemma getattr_heap v name h : (getattr v name h).1 = h.
Proof.
  destruct v; try reflexivity. cbn.
  destruct (h !! l) as [[| |? attrs]|]; try reflexivity.
  destruct (attrs !! name); reflexivity.
Qed.

Lemma len_heap v h : (len v h).1 = h.
Proof. rewrite len_seq_len. reflexivity. Qed.

Lemma getitem_heap v i h : (getitem v i h).1 = h.
Proof.
  destruct v; try reflexivity. cbn.
  destruct (h !! l) as [[ds|xs|]|]; try reflexivity.
  - destruct (ds !! i); reflexivity.
  - destruct (xs !! i); reflexivity.
Qed.

Lemma as_float_heap v h : (as_float v h).1 = h.
Proof. destruct v; reflexivity. Qed.

Lemma type_name_heap v h : (type_name v h).1 = h.
Proof. destruct v; try reflexivity. cbn. destruct (h !! l) as [[]|]; reflexivity. Qed.

Lemma frames_alloc n c : frames n (alloc c) (fun l => n <= l).
Proof.
  intros h Hn. cbn. rewrite take_app_le by lia. rewrite length_app. cbn.
  repeat split; [lia|]. intros a [= <-]. exact Hn.
Qed.

Lemma frames_copy n v : frames n (copy v) (fresh_ref n).
Proof.
  intros h Hn. destruct v; try (cbn; repeat split; auto; discriminate).
  cbn. destruct (h !! l) as [[]|]; cbn;
    rewrite ?take_app_le, ?length_app by lia; cbn;
    (repeat split; [lia|]); try discriminate;
    intros a [= <-]; exists (length h); auto.
Qed.

Lemma frames_setattr n l name v : n <= l -> frames n (setattr (VRef l) name v) (fun _ => True).
Proof.
  intros Hl h Hn. cbn.
  destruct (h !! l) as [[]|]; cbn; rewrite ?take_insert_ge, ?length_insert by lia;
    repeat split; auto.
Qed.

Lemma frames_setitem n l i x : n <= l -> frames n (setitem (VRef l) i x) (fun _ => True).
Proof.
  intros Hl h Hn. cbn.
  destruct (h !! l) as [[]|]; cbn; try case_decide; cbn;
    rewrite ?take_insert_ge, ?length_insert by lia; repeat split; auto.
Qed.

Lemma frames_for_in {A} n (body : A -> nat -> M A) idx acc :
  (forall a i, frames n (body a i) (fun _ => True)) ->
  frames n (for_in idx body acc) (fun _ => True).
Proof.
  intros Hb. revert acc. induction idx as [|i idx IH]; intros acc; cbn [for_in].
  - apply frames_ret. exact I.
  - eapply frames_bind; [apply Hb|]. intros a _. apply IH.
Qed.

Lemma frames_FinDiscountCurve n vd vt vdf im :
  frames n (FinDiscountCurve vd vt vdf im) (fresh_ref n).
Proof.
  unfold FinDiscountCurve.
  eapply frames_bind; [apply frames_alloc|]. intros l Hl. cbv beta zeta.
  do 4 (eapply frames_bind; [apply frames_setattr; exact Hl|]; intros _ _).
  apply frames_ret. exists l. auto.
Qed.

Lemma frames_bump n self bumpSize : frames n (bump self bumpSize) (fresh_ref n).
Proof.
  unfold bump.
  eapply frames_bind.
  { eapply frames_bind; [apply frames_pure, getattr_heap|]. intros a _. apply frames_copy. }
  intros times (lt & -> & Hlt).
  eapply frames_bind.
  { eapply frames_bind; [apply frames_pure, getattr_heap|]. intros a _. apply frames_copy. }
  intros dfs (ld & -> & Hld).
  eapply frames_bind.
  { eapply frames_bind; [apply frames_pure, getattr_heap|]. intros a _.
    apply frames_pure, len_heap. }
  intros k _.
  eapply frames_bind.
  { apply frames_for_in. intros [] i.
    eapply frames_bind.
    { eapply frames_bind; [apply frames_pure, getitem_heap|]. intros a _.
      apply frames_pure, as_float_heap. }
    intros t _.
    eapply frames_bind.
    { eapply frames_bind; [apply frames_pure, getitem_heap|]. intros a _.
      apply frames_pure, as_float_heap. }
    intros d _. apply frames_setitem. exact Hld. }
  intros _ _.
  eapply frames_bind; [apply frames_pure, getattr_heap|]. intros vd _.
  eapply frames_bind; [apply frames_pure, getattr_heap|]. intros im _.
  apply frames_FinDiscountCurve.
Qed.

Lemma frames_prefix {A} (m : M A) Q h :
  frames (length h) m Q -> h `prefix_of` (m h).1.
Proof.
  intros Hm. destruct (Hm h (le_n _)) as (Ht & _ & _).
  rewrite firstn_all in Ht.
  pose proof (prefix_take (m h).1 (length h)) as Hp. rewrite Ht in Hp. exact Hp.
Qed.


(** ** What the constructor call yields *)

Lemma constructor_raises vd zd zr f dc im h e :
  construction (argument_check h vd zd zr f dc im) h vd zd zr f dc = inl e ->
  snd (FinDiscountCurveZeros vd zd zr f dc im h) = inl e.
Proof.
  intros Hc. apply (constructor_run vd zd zr f dc im h (fun r => snd r = inl e)).
  rewrite Hc. reflexivity.
Qed.

Lemma constructor_returns vd zd zr f dc im h times dfs :
  construction (argument_check h vd zd zr f dc im) h vd zd zr f dc = inr (times, dfs) ->
  FinDiscountCurveZeros vd zd zr f dc im h =
    (new_curve h vd zd zr f dc im times dfs, inr (VRef (length h))).
Proof.
  intros Hc.
  apply (constructor_run vd zd zr f dc im h
           (fun r => r = (new_curve h vd zd zr f dc im times dfs, inr (VRef (length h))))).
  rewrite Hc. reflexivity.
Qed.

Lemma constructor_returns_inv vd zd zr f dc im h h' self :
  FinDiscountCurveZeros vd zd zr f dc im h = (h', inr self) ->
  exists times dfs,
    construction (argument_check h vd zd zr f dc im) h vd zd zr f dc = inr (times, dfs) /\
    h' = new_curve h vd zd zr f dc im times dfs /\ self = VRef (length h).
Proof.
  apply (constructor_run vd zd zr f dc im h
           (fun r => r = (h', inr self) -> exists times dfs,
              construction (argument_check h vd zd zr f dc im) h vd zd zr f dc = inr (times, dfs) /\
              h' = new_curve h vd zd zr f dc im times dfs /\ self = VRef (length h))).
  destruct (construction _ _ _ _ _ _ _) as [e|[times dfs]].
  - intros h1 [=].
  - intros [= <- <-]. eauto.
Qed.

Lemma construction_inr_inv chk h vd zd zr f dc times dfs :
  construction chk h vd zd zr f dc = inr (times, dfs) ->
  exists vd0 ds rs,
    chk = None /\ vd = VDate vd0 /\ dates_of h zd = Some ds /\ nums_of h zr = Some rs /\
    length ds <> 0 /\ length ds = length rs /\
    in_enum "FinFrequencyTypes" f = true /\ in_enum "FinDayCountTypes" dc = true /\
    times = year_fractions vd0 ds dc /\ increasing times = true /\
    dfs = discount_factors rs times f.
Proof.
  unfold construction. destruct chk; [discriminate|].
  destruct (seq_len h zd) as [n|] eqn:Hzd; [|discriminate].
  destruct (decide (n = 0)); [discriminate|].
  destruct (seq_len h zr) as [m|] eqn:Hzr; [|discriminate].
  destruct (decide (n ≠ m)) as [|Hnm]; [discriminate|]. apply dec_stable in Hnm.
  destruct (in_enum "FinFrequencyTypes" f); [|discriminate].
  destruct (in_enum "FinDayCountTypes" dc); [|discriminate]. cbn [negb].
  destruct (dates_of h zd) as [ds|] eqn:Hds; [|discriminate].
  destruct vd as [| | | |vd0| |]; try discriminate.
  destruct (increasing _) eqn:Hinc; [|discriminate]. cbn [negb].
  destruct (nums_of h zr) as [rs|] eqn:Hrs; [|discriminate].
  intros [= <- <-]. exists vd0, ds, rs.
  rewrite (seq_len_dates _ _ _ Hds) in Hzd. rewrite (seq_len_nums _ _ _ Hrs) in Hzr.
  repeat split; auto; congruence.
Qed.


(** ** Rendering *)

Lemma append_assoc (s1 s2 s3 : string) : (s1 +:+ s2) +:+ s3 = s1 +:+ (s2 +:+ s3).
Proof.
  induction s1 as [|a s1 IH]; [reflexivity|].
  change (String a ((s1 +:+ s2) +:+ s3) = String a (s1 +:+ s2 +:+ s3)).
  rewrite IH. reflexivity.
Qed.

Lemma append_empty_r (s : string) : s +:+ "" = s.
Proof.
  induction s as [|a s IH]; [reflexivity|].
  change (String a (s +:+ "") = String a s). rewrite IH. reflexivity.
Qed.

Lemma repr_loop h l cls attrs zd zr ds rs :
  h !! l = Some (CObj cls attrs) ->
  attrs !! "_zeroDates" = Some zd -> attrs !! "_zeroRates" = Some zr ->
  dates_of h zd = Some ds -> nums_of h zr = Some rs ->
  forall n a s, a + n <= length ds -> a + n <= length rs ->
  for_in (seq a n) (repr_body (VRef l)) s h =
    (h, inr (s +:+ observation_lines (take n (drop a ds)) (take n (drop a rs)))).
Proof.
  intros Hl Hd Hr Hds Hrs. induction n as [|n IH]; intros a s Had Har.
  - cbn. rewrite append_empty_r. reflexivity.
  - destruct (lookup_lt_is_Some_2 ds a) as [d Hda]; [lia|].
    destruct (lookup_lt_is_Some_2 rs a) as [r Hra]; [lia|].
    rewrite (drop_S _ _ _ Hda), (drop_S _ _ _ Hra).
    cbn [seq for_in take]. rewrite bind_unfold. unfold repr_body at 1.
    rewrite bind_unfold, bind_unfold, (getattr_run _ _ _ _ _ Hl), Hd.
    cbv beta iota. rewrite (getitem_dates _ _ _ _ _ Hds Hda).
    cbv beta iota. rewrite bind_unfold, bind_unfold, (getattr_run _ _ _ _ _ Hl), Hr.
    cbv beta iota. rewrite (getitem_nums _ _ _ _ _ Hrs Hra).
    cbv beta iota. unfold mret at 1, M_ret at 1.
    rewrite IH by lia. unfold observation_lines. cbn [zip_with foldr].
    rewrite append_assoc. reflexivity.
Qed.

Lemma repr_run h l cls attrs vt zd zr f n ds rs :
  h !! l = Some (CObj cls attrs) ->
  attrs !! "_times" = Some vt -> attrs !! "_zeroDates" = Some zd ->
  attrs !! "_zeroRates" = Some zr -> attrs !! "_frequencyType" = Some f ->
  seq_len h vt = Some n -> dates_of h zd = Some ds -> nums_of h zr = Some rs ->
  n <= length ds -> n <= length rs ->
  __repr__ (VRef l) h =
    (h, inr (cls +:+ newline +:+ labelToString (VStr "DATES") (VStr "ZERO RATES") +:+
             observation_lines (take n ds) (take n rs) +:+
             labelToString (VStr "FREQUENCY") f)).
Proof.
  intros Hl Ht Hd Hr Hf Hn Hds Hrs Hnd Hnr. unfold __repr__.
  rewrite bind_unfold. unfold type_name at 1. rewrite Hl. cbv beta iota zeta.
  rewrite bind_unfold, bind_unfold, (getattr_run _ _ _ _ _ Hl), Ht. cbv beta iota.
  rewrite len_seq_len, Hn. cbv beta iota.
  rewrite bind_unfold. unfold for_range.
  pose proof (repr_loop h l cls attrs zd zr ds rs Hl Hd Hr Hds Hrs n 0) as HL.
  unfold repr_body in HL. rewrite HL by lia. clear HL. cbv beta iota.
  rewrite bind_unfold, (getattr_run _ _ _ _ _ Hl), Hf. cbv beta iota.
  unfold mret, M_ret. rewrite !drop_0. rewrite !append_assoc. reflexivity.
Qed.

Lemma bump_new_curve h vd zd zr f dc im times dfs bumpSize :
  bump (VRef (length h)) bumpSize (new_curve h vd zd zr f dc im times dfs) =
    (new_curve h vd zd zr f dc im times dfs ++ [CNums times],
     inl (AttributeError "_discountFactors")).
Proof.
  unfold bump, new_curve.
  rewrite bind_unfold, bind_unfold.
  erewrite getattr_run by apply lookup_new0.
  change (curve_attrs vd zd zr f dc im (length h + 1) (length h + 2) !! "_times")
    with (Some (VRef (length h + 1) : pyval)).
  cbv beta iota. unfold copy at 1. rewrite lookup_new1. cbv beta iota.
  rewrite bind_unfold, bind_unfold.
  erewrite getattr_run
    by (rewrite <- app_assoc; apply lookup_new0).
  reflexivity.
Qed.


(** ** Strictly increasing sequences *)

Lemma increasing_head xs a :
  increasing (a :: xs) = true -> Forall (fun t => (a < t)%R) xs.
Proof.
  revert a. induction xs as [|b xs IH]; intros a Hinc; [constructor|].
  cbn [increasing] in Hinc. apply andb_true_iff in Hinc as [Hab Hinc].
  apply bool_decide_eq_true in Hab. constructor; [exact Hab|].
  eapply Forall_impl; [apply IH, Hinc|]. cbv beta. intros t Hbt. lra.
Qed.

Lemma increasing_tail xs a : increasing (a :: xs) = true -> increasing xs = true.
Proof.
  destruct xs as [|b xs]; [reflexivity|]. cbn [increasing].
  intros Hinc. apply andb_true_iff in Hinc as [_ Hinc]. exact Hinc.
Qed.

Lemma increasing_lt xs :
  increasing xs = true ->
  forall i j ti tj, i < j -> xs !! i = Some ti -> xs !! j = Some tj -> (ti < tj)%R.
Proof.
  induction xs as [|a xs IH]; intros Hinc i j ti tj Hij Hi Hj; [discriminate|].
  destruct j as [|j]; [lia|]. cbn in Hj. destruct i as [|i].
  - injection Hi as <-. pose proof (increasing_head _ _ Hinc) as Hall.
    rewrite Forall_lookup in Hall. exact (Hall _ _ Hj).
  - cbn in Hi. apply (IH (increasing_tail _ _ Hinc) i j); [lia|assumption|assumption].
Qed.


(** ** [bump] on an object that has the attribute it reads *)

Lemma scaled_upto_step bumpSize dfs ts a d t :
  length dfs = length ts -> dfs !! a = Some d -> ts !! a = Some t ->
  scaled_upto bumpSize dfs ts a !! a = Some d /\
  <[a := (d * exp (- bumpSize * t))%R]> (scaled_upto bumpSize dfs ts a) =
    scaled_upto bumpSize dfs ts (S a).
Proof.
  intros Hlen Hd Ht. unfold scaled_upto, scaled.
  pose proof (lookup_lt_Some _ _ _ Hd) as Had.
  pose proof (lookup_lt_Some _ _ _ Ht) as Hat.
  assert (length (zip_with (fun d t => d * exp (- bumpSize * t))%R (take a dfs) (take a ts))
          = a) as Hp.
  { rewrite length_zip_with, !length_take. lia. }
  split.
  - rewrite lookup_app_r by (rewrite Hp; lia).
    rewrite Hp, Nat.sub_diag, (drop_S _ _ _ Hd). reflexivity.
  - rewrite (take_S_r _ _ _ Hd), (take_S_r _ _ _ Ht).
    rewrite zip_with_app by (rewrite !length_take; lia).
    rewrite <- app_assoc. cbn [zip_with app].
    rewrite (drop_S _ _ _ Hd).
    rewrite <- Hp at 1. rewrite <- (Nat.add_0_r (length _)), insert_app_r. reflexivity.
Qed.

Lemma bump_loop h bumpSize dfs ts k :
  length dfs = length ts ->
  forall n a, a + n <= length ts ->
  for_in (seq a n) (bump_body (VRef (length h)) (VRef (length h + 1)) bumpSize) ()
    (h ++ CNums ts :: CNums (scaled_upto bumpSize dfs ts a) :: k) =
    (h ++ CNums ts :: CNums (scaled_upto bumpSize dfs ts (a + n)) :: k, inr ()).
Proof.
  intros Hlen. induction n as [|n IH]; intros a Han.
  - rewrite Nat.add_0_r. reflexivity.
  - destruct (lookup_lt_is_Some_2 ts a) as [t Hta]; [lia|].
    destruct (lookup_lt_is_Some_2 dfs a) as [d Hda]; [lia|].
    destruct (scaled_upto_step bumpSize dfs ts a d t Hlen Hda Hta) as [Hlk Hins].
    cbn [seq for_in]. rewrite bind_unfold. unfold bump_body at 1.
    rewrite bind_unfold, bind_unfold. unfold getitem at 1.
    rewrite lookup_new0, Hta. cbv beta iota. unfold as_float at 1, mret at 1, M_ret at 1.
    rewrite bind_unfold, bind_unfold. unfold getitem at 1.
    rewrite lookup_new1, Hlk. cbv beta iota. unfold as_float at 1, mret at 1, M_ret at 1.
    unfold setitem. rewrite lookup_new1.
    rewrite decide_True by (apply lookup_lt_is_Some_1; eauto).
    rewrite Hins. cbv beta iota.
    replace (<[length h + 1 := CNums (scaled_upto bumpSize dfs ts (S a))]>
               (h ++ CNums ts :: CNums (scaled_upto bumpSize dfs ts a) :: k))
      with (h ++ CNums ts :: CNums (scaled_upto bumpSize dfs ts (S a)) :: k)
      by (rewrite insert_app_r; reflexivity).
    rewrite IH by lia. replace (S a + n) with (a + S n) by lia. reflexivity.
Qed.


Lemma FinDiscountCurve_run h vd vt vdf im :
  FinDiscountCurve vd vt vdf im h =
    (h ++ [CObj "FinDiscountCurve" (base_attrs vd vt vdf im)], inr (VRef (length h))).
Proof.
  unfold FinDiscountCurve. rewrite bind_unfold. unfold alloc at 1. cbv beta iota zeta.
  do 4 set_step. reflexivity.
Qed.

Lemma copy_nums h v xs :
  nums_of h v = Some xs -> copy v h = (h ++ [CNums xs], inr (VRef (length h))).
Proof.
  destruct v; try discriminate. cbn.
  destruct (h !! l) as [[]|]; try discriminate. intros [= ->]. reflexivity.
Qed.

Lemma bump_run h l cls attrs vt vdf vd im ts dfs bumpSize :
  h !! l = Some (CObj cls attrs) ->
  attrs !! "_times" = Some vt -> nums_of h vt = Some ts ->
  attrs !! "_discountFactors" = Some vdf -> nums_of h vdf = Some dfs ->
  length dfs = length ts ->
  attrs !! "_valuationDate" = Some vd -> attrs !! "_interpMethod" = Some im ->
  bump (VRef l) bumpSize h =
    (h ++ [CNums ts; CNums (scaled bumpSize dfs ts);
           CObj "FinDiscountCurve"
             (base_attrs vd (VRef (length h)) (VRef (length h + 1)) im)],
     inr (VRef (length h + 2))).
Proof.
  intros Hl Ht Hts Hdf Hdfs Hlen Hvd Him. unfold bump.
  rewrite bind_unfold, bind_unfold, (getattr_run _ _ _ _ _ Hl), Ht. cbv beta iota.
  rewrite (copy_nums _ _ _ Hts). cbv beta iota.
  assert (Hl1 : (h ++ [CNums ts]) !! l = Some (CObj cls attrs))
    by (apply lookup_app_l_Some; exact Hl).
  rewrite bind_unfold, bind_unfold, (getattr_run _ _ _ _ _ Hl1), Hdf. cbv beta iota.
  rewrite (copy_nums _ _ dfs) by (apply nums_of_app; exact Hdfs). cbv beta iota.
  rewrite <- app_assoc, length_app. cbn [app length].
  assert (Hl2 : (h ++ [CNums ts; CNums dfs]) !! l = Some (CObj cls attrs))
    by (apply lookup_app_l_Some; exact Hl).
  rewrite bind_unfold, bind_unfold, (getattr_run _ _ _ _ _ Hl2), Ht. cbv beta iota.
  rewrite len_seq_len, (seq_len_nums _ _ ts) by (apply nums_of_app; exact Hts).
  cbv beta iota. rewrite bind_unfold. unfold for_range.
  change (CNums dfs) with (CNums (scaled_upto bumpSize dfs ts 0) : cell).
  pose proof (bump_loop h bumpSize dfs ts [] Hlen (length ts) 0 (le_n _)) as HL.
  unfold bump_body in HL. rewrite HL. clear HL. cbv beta iota.
  assert (Hl3 : (h ++ [CNums ts; CNums (scaled_upto bumpSize dfs ts (0 + length ts))]) !! l
                = Some (CObj cls attrs))
    by (apply lookup_app_l_Some; exact Hl).
  rewrite bind_unfold, (getattr_run _ _ _ _ _ Hl3), Hvd. cbv beta iota.
  rewrite bind_unfold, (getattr_run _ _ _ _ _ Hl3), Him. cbv beta iota.
  rewrite FinDiscountCurve_run, <- app_assoc, length_app. cbn [app length].
  unfold scaled_upto. cbn [Nat.add].
  rewrite <- Hlen at 3. rewrite drop_all, app_nil_r.
  rewrite <- Hlen at 1. rewrite !firstn_all. reflexivity.
Qed.


(** ** Inversion of a call that returns *)

Lemma bind_inr {A B} (m : M A) (f : A -> M B) h h' b :
  (m ≫= f) h = (h', inr b) -> exists a h1, m h = (h1, inr a) /\ f a h1 = (h', inr b).
Proof.
  rewrite bind_unfold. destruct (m h) as [h1 [e|a]]; [discriminate|]. eauto.
Qed.

Lemma getattr_inr v name h h' x :
  getattr v name h = (h', inr x) ->
  h' = h /\ exists l cls attrs,
    v = VRef l /\ h !! l = Some (CObj cls attrs) /\ attrs !! name = Some x.
Proof.
  destruct v; try discriminate. cbn.
  destruct (h !! l) as [[| |cls attrs]|] eqn:Hl; try discriminate.
  destruct (attrs !! name) eqn:Hn; [|discriminate].
  intros [= <- <-]. eauto 10.
Qed.

Lemma copy_inr v h h' r :
  copy v h = (h', inr r) ->
  exists c n, h' = h ++ [c] /\ r = VRef (length h) /\
    forall k, seq_len (h ++ c :: k) (VRef (length h)) = Some n.
Proof.
  destruct v; try discriminate. cbn.
  destruct (h !! l) as [[ds|xs|]|]; try discriminate; intros [= <- <-].
  - exists (CDates ds), (length ds). repeat split. intros k. cbn. rewrite lookup_new0. reflexivity.
  - exists (CNums xs), (length xs). repeat split. intros k. cbn. rewrite lookup_new0. reflexivity.
Qed.

Lemma frames_bump_loop n times ld bumpSize (idx : list nat) acc :
  n <= ld ->
  frames n (for_in idx (fun (_ : ()) i =>
    t ← getitem times i ≫= as_float;
    d ← getitem (VRef ld) i ≫= as_float;
    setitem (VRef ld) i (d * exp (- bumpSize * t))%R) acc) (fun _ => True).
Proof.
  intros Hld. apply frames_for_in. intros [] i.
  eapply frames_bind.
  { eapply frames_bind; [apply frames_pure, getitem_heap|]. intros a _.
    apply frames_pure, as_float_heap. }
  intros t _.
  eapply frames_bind.
  { eapply frames_bind; [apply frames_pure, getitem_heap|]. intros a _.
    apply frames_pure, as_float_heap. }
  intros d _. apply frames_setitem. exact Hld.
Qed.

Lemma bump_returns_inv self bumpSize h h' r :
  bump self bumpSize h = (h', inr r) ->
  exists vd im c1 n h4,
    getattr self "_valuationDate" h = (h, inr vd) /\
    getattr self "_interpMethod" h = (h, inr im) /\
    (h ++ [c1]) `prefix_of` h4 /\ length h + 2 <= length h4 /\
    seq_len h4 (VRef (length h)) = Some n /\
    h' = h4 ++ [CObj "FinDiscountCurve"
                  (base_attrs vd (VRef (length h)) (VRef (length h + 1)) im)] /\
    r = VRef (length h4).
Proof.
  unfold bump. intros Hb.
  apply bind_inr in Hb as (times & h1 & Ht & Hb).
  apply bind_inr in Ht as (vt & h0 & Hgt & Hct).
  apply getattr_inr in Hgt as (-> & l & cls & attrs & -> & Hl & Hat).
  apply copy_inr in Hct as (c1 & n & -> & -> & Hn).
  apply bind_inr in Hb as (dfs & h2 & Hd & Hb).
  apply bind_inr in Hd as (vdf & h0 & Hgd & Hcd).
  apply getattr_inr in Hgd as (-> & _).
  apply copy_inr in Hcd as (c2 & n2 & -> & -> & _).
  apply bind_inr in Hb as (k & h3 & Hk & Hb).
  apply bind_inr in Hk as (vt' & h0 & Hgt' & Hlen).
  apply getattr_inr in Hgt' as (-> & _).
  assert (h3 = (h ++ [c1]) ++ [c2]) as ->.
  { pose proof (len_heap vt' ((h ++ [c1]) ++ [c2])) as Hh. rewrite Hlen in Hh. auto. }
  apply bind_inr in Hb as ([] & h4 & Hloop & Hb).
  apply bind_inr in Hb as (vd & h0 & Hvd & Hb).
  apply getattr_inr in Hvd as (-> & l1 & cls1 & attrs1 & [= <-] & Hl1 & Hvd).
  apply bind_inr in Hb as (im & h0 & Him & Hb).
  apply getattr_inr in Him as (-> & l2 & cls2 & attrs2 & [= <-] & Hl2 & Him).
  rewrite FinDiscountCurve_run in Hb. injection Hb as <- <-.
  rewrite length_app in *. cbn [length] in *.
  assert (Hle : length h + 1 <= length ((h ++ [c1]) ++ [c2])).
  { rewrite !length_app; cbn; lia. }
  pose proof (frames_bump_loop (length h + 1) (VRef (length h)) (length h + 1) bumpSize
                (seq 0 k) () (le_n _) ((h ++ [c1]) ++ [c2]) Hle) as Hfr.
  unfold for_range in Hloop. rewrite Hloop in Hfr. cbn [fst snd] in Hfr.
  destruct Hfr as (Htake & Hlen4 & _).
  rewrite !length_app in Hlen4. cbn [length] in Hlen4.
  rewrite take_app_le in Htake by (rewrite length_app; cbn; lia).
  rewrite (take_ge (h ++ [c1])) in Htake by (rewrite length_app; cbn; lia).
  assert (Hpre : (h ++ [c1]) `prefix_of` h4).
  { rewrite <- Htake. apply prefix_take. }
  assert (Hl4 : h4 !! l = Some (CObj cls attrs)).
  { eapply prefix_lookup_Some; [|exact Hpre]. apply lookup_app_l_Some. exact Hl. }
  rewrite Hl1 in Hl4. injection Hl4 as -> ->.
  rewrite Hl2 in Hl1. injection Hl1 as -> ->.
  exists vd, im, c1, n, h4. repeat split; auto.
  - rewrite (getattr_run _ _ _ _ _ Hl), Hvd. reflexivity.
  - rewrite (getattr_run _ _ _ _ _ Hl), Him. reflexivity.
  - lia.
  - destruct Hpre as [k' ->]. rewrite <- app_assoc. apply Hn.
Qed.


(** ** Consequences for the constructor *)

Lemma constructor_outcome vd zd zr f dc im h :
  (FinDiscountCurveZeros vd zd zr f dc im h).2 =
    match construction (argument_check h vd zd zr f dc im) h vd zd zr f dc with
    | inl e => inl e
    | inr _ => inr (VRef (length h))
    end.
Proof.
  destruct (construction _ _ _ _ _ _ _) as [e|[times dfs]] eqn:Hc.
  - apply constructor_raises. exact Hc.
  - rewrite (constructor_returns _ _ _ _ _ _ _ _ _ Hc). reflexivity.
Qed.

Lemma field_new_curve h vd zd zr f dc im times dfs name :
  field (new_curve h vd zd zr f dc im times dfs) (VRef (length h)) name =
    curve_attrs vd zd zr f dc im (length h + 1) (length h + 2) !! name.
Proof.
  unfold field, new_curve. erewrite getattr_run by apply lookup_new0.
  destruct (_ !! name); reflexivity.
Qed.

Lemma curve_attrs_lookup (vd zd zr f dc im : pyval) lt ldf :
  let attrs := curve_attrs vd zd zr f dc im lt ldf in
  attrs !! "_valuationDate" = Some vd /\ attrs !! "_frequencyType" = Some f /\
  attrs !! "_dayCountType" = Some dc /\ attrs !! "_interpMethod" = Some im /\
  attrs !! "_times" = Some (VRef lt) /\ attrs !! "_zeroRates" = Some zr /\
  attrs !! "_zeroDates" = Some zd /\ attrs !! "_dfValues" = Some (VRef ldf) /\
  attrs !! "_discountFactors" = None.
Proof. cbv zeta. repeat split; reflexivity. Qed.

Lemma lookup_new2 h c0 c1 c k : (h ++ c0 :: c1 :: c :: k) !! (length h + 2) = Some c.
Proof. rewrite lookup_new. reflexivity. Qed.

(** ** Computations that only read *)

Lemma reads_only_ret {A} (a : A) : reads_only (mret a : M A).
Proof. intros h. reflexivity. Qed.

Lemma reads_only_raise {A} e : reads_only (raise e : M A).
Proof. intros h. reflexivity. Qed.

Lemma reads_only_bind {A B} (m : M A) (f : A -> M B) :
  reads_only m -> (forall a, reads_only (f a)) -> reads_only (m ≫= f).
Proof.
  intros Hm Hf h. rewrite bind_unfold. specialize (Hm h).
  destruct (m h) as [h1 [e|a]]; cbn [fst] in *; [exact Hm|].
  rewrite Hf. exact Hm.
Qed.

Lemma reads_only_for_in {A} (body : A -> nat -> M A) idx acc :
  (forall a i, reads_only (body a i)) -> reads_only (for_in idx body acc).
Proof.
  intros Hb. revert acc. induction idx as [|i idx IH]; intros acc; cbn [for_in].
  - apply reads_only_ret.
  - apply reads_only_bind; [apply Hb|]. intros a. apply IH.
Qed.

Lemma read_nums_heap v h : (read_nums v h).1 = h.
Proof. rewrite read_nums_run. reflexivity. Qed.

Lemma reads_only_repr self : reads_only (__repr__ self).
Proof.
  unfold __repr__.
  apply reads_only_bind; [intros h; apply type_name_heap|]. intros name. cbv zeta.
  apply reads_only_bind.
  { apply reads_only_bind; [intros h; apply getattr_heap|]. intros a h. apply len_heap. }
  intros n.
  apply reads_only_bind.
  { apply reads_only_for_in. intros s i.
    apply reads_only_bind.
    { apply reads_only_bind; [intros h; apply getattr_heap|]. intros a h.
      apply getitem_heap. }
    intros d.
    apply reads_only_bind.
    { apply reads_only_bind; [intros h; apply getattr_heap|]. intros a h.
      apply getitem_heap. }
    intros r. apply reads_only_ret. }
  intros s.
  apply reads_only_bind; [intros h; apply getattr_heap|]. intros f.
  apply reads_only_ret.
Qed.

Lemma reads_only_getDiscountFactor self t : reads_only (getDiscountFactor self t).
Proof.
  unfold getDiscountFactor.
  destruct (decide (t < 0)%R); [apply reads_only_raise|].
  destruct (decide (t = 0%R)); [apply reads_only_ret|].
  apply reads_only_bind.
  { apply reads_only_bind; [intros h; apply getattr_heap|]. intros a h.
    apply read_nums_heap. }
  intros ts.
  apply reads_only_bind.
  { apply reads_only_bind; [intros h; apply getattr_heap|]. intros a h.
    apply read_nums_heap. }
  intros dfs.
  apply reads_only_bind; [intros h; apply getattr_heap|]. intros im.
  apply reads_only_ret.
Qed.

Lemma bump_preserves self bumpSize h l c :
  h !! l = Some c -> (bump self bumpSize h).1 !! l = Some c.
Proof.
  intros Hl. eapply prefix_lookup_Some; [exact Hl|].
  eapply frames_prefix. apply frames_bump.
Qed.

(** With the attribute in place the loop does what it is meant to: each
    discount factor is multiplied by [exp (- bumpSize * t)], and a zero shift
    changes none. *)
Lemma scaled_zero dfs ts : length dfs = length ts -> scaled 0 dfs ts = dfs.
Proof.
  unfold scaled. revert ts. induction dfs as [|d dfs IH]; intros [|t ts] Hlen;
    try discriminate; [reflexivity|].
  cbn [zip_with]. rewrite IH by (cbn in Hlen; lia).
  f_equal. replace (- 0 * t)%R with 0%R by lra. rewrite exp_0. lra.
Qed.

Lemma scaled_lookup bumpSize dfs ts i d t :
  dfs !! i = Some d -> ts !! i = Some t ->
  scaled bumpSize dfs ts !! i = Some (d * exp (- bumpSize * t))%R.
Proof.
  intros Hd Ht. unfold scaled. rewrite lookup_zip_with, Hd. cbn. rewrite Ht. reflexivity.
Qed.

(** The discount factors the constructor stores: at each index, the rate
    converter applied to the rate and the time of that index. *)
Lemma constructed_curve_points vd zd zr f dc im h h' self :
  FinDiscountCurveZeros vd zd zr f dc im h = (h', inr self) ->
  exists times dfs rs,
    field_nums h' self "_times" = Some times /\
    field_nums h' self "_dfValues" = Some dfs /\
    field_nums h' self "_zeroRates" = Some rs /\
    forall i r t, rs !! i = Some r -> times !! i = Some t ->
      dfs !! i = Some (zeroToDf r t f).
Proof.
  intros Hc.
  apply constructor_returns_inv in Hc as (times & dfs & Hc & -> & ->).
  apply construction_inr_inv in Hc
    as (vd0 & ds & rs & _ & -> & _ & Hrs & _ & _ & _ & _ & _ & _ & Hdfs).
  destruct (curve_attrs_lookup (VDate vd0) zd zr f dc im (length h + 1) (length h + 2))
    as (_ & _ & _ & _ & Ht & Hr & _ & Hdf & _).
  exists times, dfs, rs.
  unfold field_nums. rewrite !field_new_curve, Ht, Hr, Hdf. cbn [mbind option_bind].
  repeat split.
  - unfold nums_of, new_curve. rewrite lookup_new1. reflexivity.
  - unfold nums_of, new_curve. rewrite lookup_new2. reflexivity.
  - apply nums_of_app. exact Hrs.
  - intros i r t Hi Hti. rewrite Hdfs. unfold discount_factors.
    rewrite lookup_zip_with, Hi. cbn. rewrite Hti. reflexivity.
Qed.

Lemma field_inv h self name v :
  field h self name = Some v ->
  exists l cls attrs, self = VRef l /\ h !! l = Some (CObj cls attrs) /\
    attrs !! name = Some v.
Proof.
  unfold field. destruct (getattr self name h) as [h0 [e|x]] eqn:Hg; [discriminate|].
  cbn [snd]. intros [= ->]. apply getattr_inr in Hg as (_ & Hx). exact Hx.
Qed.

(** Running [_buildCurvePoints] on a curve the constructor has built: the
    store it leaves. *)
Lemma rebuild_store h (vd zd zr f dc im : pyval) times dfs rs :
  nums_of h zr = Some rs -> length times = length rs ->
  _buildCurvePoints (VRef (length h)) (new_curve h vd zd zr f dc im times dfs) =
    (h ++ [CObj "FinDiscountCurveZeros"
             (<["_dfValues" := VRef (length h + 3)]>
                (curve_attrs vd zd zr f dc im (length h + 1) (length h + 2)));
           CNums times; CNums dfs; CNums (discount_factors rs times f)],
     inr ()).
Proof.
  intros Hrs Hlen.
  destruct (curve_attrs_lookup vd zd zr f dc im (length h + 1) (length h + 2))
    as (_ & Hf & _ & _ & Ht & Hr & _ & _ & _).
  unfold new_curve.
  erewrite (buildCurvePoints_run _ (length h) _ _ (VRef (length h + 1)) zr f times rs);
    [|apply lookup_new0|exact Ht|exact Hr|exact Hf| |apply nums_of_app; exact Hrs
     |exact Hlen].
  - rewrite <- app_assoc. cbn [app]. rewrite insert_new0, length_app. cbn [length].
    reflexivity.
  - unfold nums_of. rewrite lookup_new1. reflexivity.
Qed.

(** * The claims *)

(** C1 (a defect of the code).  [bump] is meant to return a new curve over
    the same times with every discount factor multiplied by
    [exp (- bumpSize * t)].  It reads [self._discountFactors], and the
    constructor stores the discount factors under [_dfValues] only: on every
    curve the constructor returns, and for every shift, [bump] copies the
    times and then raises [AttributeError] for [_discountFactors]; no curve is
    returned. *)
Theorem bump_on_constructed_curve vd zd zr f dc im h h' self bumpSize :
  FinDiscountCurveZeros vd zd zr f dc im h = (h', inr self) ->
  (bump self bumpSize h').2 = inl (AttributeError "_discountFactors").
Proof.
  intros Hc. apply constructor_returns_inv in Hc as (times & dfs & _ & -> & ->).
  rewrite bump_new_curve. reflexivity.
Qed.

(** C3 (as amended).  When the argument-type check passes and the arguments
    are a date, a list of dates and a list of floats, the constructor checks,
    in this order: no date; as many rates as dates; the frequency selector in
    its enumeration; the day-count selector in its enumeration; times strictly
    increasing.  The first check that fails decides the exception, whatever
    the later ones would say, and when none fails the call returns.  Each
    failure raises the one class [FinError], with a message of its own: the
    five exceptions are pairwise different. *)
Theorem validation_order vd0 zd zr f dc im h ds rs :
  argument_check h (VDate vd0) zd zr f dc im = None ->
  dates_of h zd = Some ds -> nums_of h zr = Some rs ->
  let outcome := (FinDiscountCurveZeros (VDate vd0) zd zr f dc im h).2 in
  let times := year_fractions vd0 ds dc in
  (length ds = 0 -> outcome = inl (FinError "Dates has zero length")) /\
  (length ds <> 0 -> length ds <> length rs ->
   outcome = inl (FinError "Dates and Rates are not the same length")) /\
  (length ds <> 0 -> length ds = length rs ->
   in_enum "FinFrequencyTypes" f = false ->
   outcome = inl (FinError ("Unknown Frequency type " +:+ str f))) /\
  (length ds <> 0 -> length ds = length rs ->
   in_enum "FinFrequencyTypes" f = true -> in_enum "FinDayCountTypes" dc = false ->
   outcome = inl (FinError ("Unknown Cap Floor DayCountRule type " +:+ str dc))) /\
  (length ds <> 0 -> length ds = length rs ->
   in_enum "FinFrequencyTypes" f = true -> in_enum "FinDayCountTypes" dc = true ->
   increasing times = false ->
   outcome = inl (FinError "Times or dates are not sorted in increasing order")) /\
  (length ds <> 0 -> length ds = length rs ->
   in_enum "FinFrequencyTypes" f = true -> in_enum "FinDayCountTypes" dc = true ->
   increasing times = true ->
   outcome = inr (VRef (length h))) /\
  NoDup [FinError "Dates has zero length";
         FinError "Dates and Rates are not the same length";
         FinError ("Unknown Frequency type " +:+ str f);
         FinError ("Unknown Cap Floor DayCountRule type " +:+ str dc);
         FinError "Times or dates are not sorted in increasing order"].
Proof.
  intros Hchk Hds Hrs outcome times. subst outcome times.
  rewrite constructor_outcome, Hchk. unfold construction.
  rewrite (seq_len_dates _ _ _ Hds), (seq_len_nums _ _ _ Hrs), Hds, Hrs.
  repeat split.
  - intros Hn. rewrite decide_True by exact Hn. reflexivity.
  - intros Hn Hm. rewrite decide_False, decide_True by assumption. reflexivity.
  - intros Hn Hm Hf. rewrite decide_False by assumption.
    rewrite decide_False by (intros Hne; exact (Hne Hm)). rewrite Hf. reflexivity.
  - intros Hn Hm Hf Hdc. rewrite decide_False by assumption.
    rewrite decide_False by (intros Hne; exact (Hne Hm)). rewrite Hf, Hdc. reflexivity.
  - intros Hn Hm Hf Hdc Hinc. rewrite decide_False by assumption.
    rewrite decide_False by (intros Hne; exact (Hne Hm)).
    rewrite Hf, Hdc, Hinc. reflexivity.
  - intros Hn Hm Hf Hdc Hinc. rewrite decide_False by assumption.
    rewrite decide_False by (intros Hne; exact (Hne Hm)).
    rewrite Hf, Hdc, Hinc. reflexivity.
  - repeat (apply NoDup_cons; split); [..|apply NoDup_nil_2];
      rewrite ?elem_of_cons, ?elem_of_nil; intros Hin;
      repeat (destruct Hin as [Hin|Hin]); try discriminate Hin; exact Hin.
Qed.

(** C4 (as amended).  A curve the constructor returns has its times, its
    discount factors, its retained dates and its retained rates of one common,
    non-zero length, and its times increase strictly.  Each time is the year
    fraction from the valuation date to the retained date of the same index:
    the first time has the sign of that year fraction, and the constructor
    never compares the valuation date with the first date.  [bump],
    [__repr__] and the discount-factor query leave every cell of the store as
    it was; [_buildCurvePoints] leaves the times and the retained lists as
    they are and binds the discount factors to another array, of the same
    contents.  The retained dates and rates are the very lists the caller
    passed. *)
Theorem constructed_curve_invariants vd zd zr f dc im h h' self :
  FinDiscountCurveZeros vd zd zr f dc im h = (h', inr self) ->
  exists vd0 times dfs ds rs,
    vd = VDate vd0 /\
    field_nums h' self "_times" = Some times /\
    field_nums h' self "_dfValues" = Some dfs /\
    field_dates h' self "_zeroDates" = Some ds /\
    field_nums h' self "_zeroRates" = Some rs /\
    length times = length dfs /\ length dfs = length ds /\ length ds = length rs /\
    0 < length rs /\
    (forall i j ti tj, i < j -> times !! i = Some ti -> times !! j = Some tj ->
       (ti < tj)%R) /\
    (forall i d, ds !! i = Some d -> times !! i = Some (yearFrac vd0 d dc)) /\
    (forall bumpSize l c, h' !! l = Some c -> (bump self bumpSize h').1 !! l = Some c) /\
    (__repr__ self h').1 = h' /\
    (forall t, (getDiscountFactor self t h').1 = h') /\
    (exists h'',
       _buildCurvePoints self h' = (h'', inr ()) /\
       field_nums h'' self "_times" = Some times /\
       field_nums h'' self "_dfValues" = Some dfs /\
       field_dates h'' self "_zeroDates" = Some ds /\
       field_nums h'' self "_zeroRates" = Some rs /\
       field h'' self "_times" = field h' self "_times" /\
       field h'' self "_dfValues" <> field h' self "_dfValues") /\
    field h' self "_zeroDates" = Some zd /\ field h' self "_zeroRates" = Some zr.
Proof.
  intros Hc.
  apply constructor_returns_inv in Hc as (times & dfs & Hc & -> & ->).
  apply construction_inr_inv in Hc
    as (vd0 & ds & rs & _ & -> & Hds & Hrs & Hn & Hlen & _ & _ & Htimes & Hinc & Hdfs).
  exists vd0, times, dfs, ds, rs.
  assert (Hlt : length times = length ds).
  { rewrite Htimes. unfold year_fractions. apply length_map. }
  destruct (curve_attrs_lookup (VDate vd0) zd zr f dc im (length h + 1) (length h + 2))
    as (_ & _ & _ & _ & Ht & Hr & Hd & Hdf & _).
  assert (Hfield : forall name,
    field (h ++ [CObj "FinDiscountCurveZeros"
                   (<["_dfValues" := VRef (length h + 3)]>
                      (curve_attrs (VDate vd0) zd zr f dc im (length h + 1) (length h + 2)));
                 CNums times; CNums dfs; CNums (discount_factors rs times f)])
      (VRef (length h)) name =
    (<["_dfValues" := VRef (length h + 3)]>
       (curve_attrs (VDate vd0) zd zr f dc im (length h + 1) (length h + 2))) !! name).
  { intros name. unfold field. erewrite getattr_run by apply lookup_new0.
    destruct (_ !! name); reflexivity. }
  unfold field_nums, field_dates. rewrite !field_new_curve, Ht, Hr, Hd, Hdf.
  cbn [mbind option_bind].
  split; [reflexivity|].
  split; [unfold nums_of, new_curve; rewrite lookup_new1; reflexivity|].
  split; [unfold nums_of, new_curve; rewrite lookup_new2; reflexivity|].
  split; [apply dates_of_app; exact Hds|].
  split; [apply nums_of_app; exact Hrs|].
  split; [rewrite Hdfs; unfold discount_factors; rewrite length_zip_with; lia|].
  split; [rewrite Hdfs; unfold discount_factors; rewrite length_zip_with; lia|].
  split; [exact Hlen|]. split; [lia|].
  split; [apply increasing_lt; exact Hinc|].
  split.
  { intros i d Hi. rewrite Htimes. unfold year_fractions.
    rewrite list_lookup_fmap, Hi. reflexivity. }
  split; [intros bumpSize l c; apply bump_preserves|].
  split; [apply reads_only_repr|].
  split; [intros t; apply reads_only_getDiscountFactor|].
  split; [|split; reflexivity].
  eexists. split; [apply (rebuild_store h (VDate vd0) zd zr f dc im times dfs rs Hrs); lia|].
  rewrite !Hfield.
  change (_ !! "_times") with (Some (VRef (length h + 1) : pyval)).
  change (_ !! "_dfValues") with (Some (VRef (length h + 3) : pyval)).
  change (_ !! "_zeroDates") with (Some zd).
  change (_ !! "_zeroRates") with (Some zr).
  cbn [mbind option_bind].
  split; [unfold nums_of; rewrite lookup_new1; reflexivity|].
  split; [unfold nums_of; rewrite lookup_new; rewrite Hdfs; reflexivity|].
  split; [apply dates_of_app; exact Hds|].
  split; [apply nums_of_app; exact Hrs|].
  split; [reflexivity|].
  intros [= Heq]. lia.
Qed.

(** C5, on the discount-factor query as the specification describes it.  On
    every curve the constructor returns, whatever the rates and the
    conventions, the discount factor at time 0 is exactly 1. *)
Theorem discount_factor_at_zero vd zd zr f dc im h h' self :
  FinDiscountCurveZeros vd zd zr f dc im h = (h', inr self) ->
  getDiscountFactor self 0 h' = (h', inr 1%R).
Proof.
  intros _. unfold getDiscountFactor.
  rewrite decide_False by lra. rewrite decide_True by reflexivity. reflexivity.
Qed.

(** C6 (the defect of C1).  A zero shift is meant to give a curve with the
    same discount factors.  On every curve the constructor returns, the
    expression [curve.bump(0).getDiscountFactor(t)] raises [AttributeError]
    for [_discountFactors] inside [bump]: there is no shifted curve to
    query. *)
Theorem zero_shift_on_constructed_curve vd zd zr f dc im h h' self t :
  FinDiscountCurveZeros vd zd zr f dc im h = (h', inr self) ->
  ((bump self 0 ≫= fun shifted => getDiscountFactor shifted t) h').2 =
    inl (AttributeError "_discountFactors").
Proof.
  intros Hc. apply constructor_returns_inv in Hc as (times & dfs & _ & -> & ->).
  rewrite bind_unfold, bump_new_curve. reflexivity.
Qed.

(** C7.  A call of [bump] leaves every cell of the store as it was: the
    source curve, its arrays, its retained inputs.  When it returns, the curve
    it returns and the two arrays that curve holds are new cells; writing to a
    new cell, or calling [bump] on the returned curve, again leaves every cell
    of the original store as it was. *)
Theorem bump_leaves_source_unchanged self bumpSize h :
  (forall l c, h !! l = Some c -> (bump self bumpSize h).1 !! l = Some c) /\
  forall shifted, (bump self bumpSize h).2 = inr shifted ->
    fresh_ref (length h) shifted /\
    field (bump self bumpSize h).1 shifted "_times" = Some (VRef (length h)) /\
    field (bump self bumpSize h).1 shifted "_dfValues" = Some (VRef (length h + 1)) /\
    (forall l0 c0 l c, length h <= l0 -> h !! l = Some c ->
       (<[l0 := c0]> (bump self bumpSize h).1) !! l = Some c) /\
    (forall bumpSize' l c, h !! l = Some c ->
       (bump shifted bumpSize' (bump self bumpSize h).1).1 !! l = Some c).
Proof.
  split; [intros l c; apply bump_preserves|].
  intros shifted Hr.
  pose proof (bump_preserves self bumpSize h) as Hpre.
  destruct (bump self bumpSize h) as [h' r] eqn:Hb. cbn [fst snd] in *. subst r.
  apply bump_returns_inv in Hb
    as (vd & im & c1 & n & h4 & _ & _ & _ & Hlen & _ & -> & ->).
  repeat split.
  - exists (length h4). split; [reflexivity|lia].
  - unfold field. erewrite getattr_run by apply lookup_new0. reflexivity.
  - unfold field. erewrite getattr_run by apply lookup_new0. reflexivity.
  - intros l0 c0 l c Hl0 Hl. pose proof (lookup_lt_Some _ _ _ Hl) as Hlt.
    rewrite list_lookup_insert_ne by lia. apply Hpre. exact Hl.
  - intros bumpSize' l c Hl. apply bump_preserves, Hpre. exact Hl.
Qed.

(** C8 (as amended).  The rendering of a curve the constructor returns is
    the class name and a line break, then a header made of the two labels
    DATES and ZERO RATES, then one labelled line per observation, in input
    order, showing the retained date and the retained rate, then the
    frequency under the label FREQUENCY.  It is a function of the retained
    dates and rates and of the frequency; the times and the discount factors
    do not occur in it. *)
Theorem rendering_of_constructed_curve vd zd zr f dc im h h' self :
  FinDiscountCurveZeros vd zd zr f dc im h = (h', inr self) ->
  exists ds rs,
    field_dates h' self "_zeroDates" = Some ds /\
    field_nums h' self "_zeroRates" = Some rs /\
    __repr__ self h' =
      (h', inr ("FinDiscountCurveZeros" +:+ newline +:+
                labelToString (VStr "DATES") (VStr "ZERO RATES") +:+
                observation_lines ds rs +:+
                labelToString (VStr "FREQUENCY") f)).
Proof.
  intros Hc.
  apply constructor_returns_inv in Hc as (times & dfs & Hc & -> & ->).
  apply construction_inr_inv in Hc
    as (vd0 & ds & rs & _ & -> & Hds & Hrs & Hn & Hlen & _ & _ & Htimes & _ & _).
  assert (Hlt : length times = length ds).
  { rewrite Htimes. unfold year_fractions. apply length_map. }
  destruct (curve_attrs_lookup (VDate vd0) zd zr f dc im (length h + 1) (length h + 2))
    as (_ & Hf & _ & _ & Ht & Hr & Hd & _ & _).
  exists ds, rs. unfold field_nums, field_dates. rewrite !field_new_curve, Hr, Hd.
  cbn [mbind option_bind].
  assert (Hds' : dates_of (new_curve h (VDate vd0) zd zr f dc im times dfs) zd = Some ds)
    by (apply dates_of_app; exact Hds).
  assert (Hrs' : nums_of (new_curve h (VDate vd0) zd zr f dc im times dfs) zr = Some rs)
    by (apply nums_of_app; exact Hrs).
  repeat split; [exact Hds'|exact Hrs'|].
  erewrite (repr_run _ (length h) _ _ _ zd zr f (length times) ds rs);
    [|apply lookup_new0|exact Ht|exact Hd|exact Hr|exact Hf| |exact Hds'|exact Hrs'
     |lia|lia].
  - rewrite Hlt, firstn_all, Hlen, firstn_all. reflexivity.
  - unfold seq_len, new_curve. rewrite lookup_new1. reflexivity.
Qed.

(** C9 (as amended).  None of the constructor's own checks looks at the
    interpolation method: the only check the value goes through is the
    argument-type check that opens the constructor.  On arguments that pass
    every other validation, that check decides alone: when it raises, the
    constructor raises its exception; when it accepts the value, member of
    [FinInterpMethods] or not, the constructor returns and the curve holds the
    value as given. *)
Theorem interpMethod_checked_by_argument_check_only vd0 zd zr f dc im h ds rs :
  dates_of h zd = Some ds -> nums_of h zr = Some rs ->
  length ds <> 0 -> length ds = length rs ->
  in_enum "FinFrequencyTypes" f = true -> in_enum "FinDayCountTypes" dc = true ->
  increasing (year_fractions vd0 ds dc) = true ->
  match argument_check h (VDate vd0) zd zr f dc im with
  | Some e => (FinDiscountCurveZeros (VDate vd0) zd zr f dc im h).2 = inl e
  | None =>
      exists h',
        FinDiscountCurveZeros (VDate vd0) zd zr f dc im h = (h', inr (VRef (length h))) /\
        field h' (VRef (length h)) "_interpMethod" = Some im
  end.
Proof.
  intros Hds Hrs Hn Hlen Hf Hdc Hinc.
  destruct (argument_check h (VDate vd0) zd zr f dc im) as [e|] eqn:Hchk.
  - apply constructor_raises. rewrite Hchk. reflexivity.
  - eexists. split.
    + apply (constructor_returns _ _ _ _ _ _ _ (year_fractions vd0 ds dc)
               (discount_factors rs (year_fractions vd0 ds dc) f)).
      rewrite Hchk. unfold construction.
      rewrite (seq_len_dates _ _ _ Hds), (seq_len_nums _ _ _ Hrs), Hds, Hrs.
      rewrite decide_False by exact Hn.
      rewrite decide_False by (intros Hne; exact (Hne Hlen)).
      rewrite Hf, Hdc, Hinc. reflexivity.
    + rewrite field_new_curve. reflexivity.
Qed.

(** C10 (the defect of C1).  The claim describes the curve [bump] returns.
    On every curve the constructor returns, and for every shift, [bump] ends
    at its second statement: it has copied the times, raises [AttributeError]
    for [_discountFactors], and leaves the store with that copy as its only
    new cell.  The call of the base-class constructor is not reached and no
    object is created: there is no bumped curve, to carry anything or to be
    rendered. *)
Theorem bump_creates_no_curve vd zd zr f dc im h h' self bumpSize :
  FinDiscountCurveZeros vd zd zr f dc im h = (h', inr self) ->
  exists times,
    field_nums h' self "_times" = Some times /\
    bump self bumpSize h' =
      (h' ++ [CNums times], inl (AttributeError "_discountFactors")) /\
    forall l cls attrs,
      (bump self bumpSize h').1 !! l = Some (CObj cls attrs) ->
      h' !! l = Some (CObj cls attrs).
Proof.
  intros Hc. apply constructor_returns_inv in Hc as (times & dfs & _ & -> & ->).
  exists times. rewrite bump_new_curve. cbn [fst].
  split.
  { unfold field_nums. rewrite field_new_curve.
    change (_ !! "_times") with (Some (VRef (length h + 1) : pyval)).
    cbn [mbind option_bind]. unfold nums_of, new_curve. rewrite lookup_new1. reflexivity. }
  split; [reflexivity|].
  intros l cls attrs Hl.
  apply lookup_app_Some in Hl as [Hl|[Hge Hl]]; [exact Hl|].
  destruct (l - length (new_curve h vd zd zr f dc im times dfs)) as [|k];
    cbn in Hl; [discriminate Hl|]. discriminate Hl.
Qed.

(** * Further properties of the constructor, of [bump] and of [__repr__] *)

(** ** The constructor writes to new cells only *)

Lemma frames_raise {A} n e (Q : A -> Prop) : frames n (raise e : M A) Q.
Proof. intros h Hn. cbn. repeat split; auto. discriminate. Qed.

Lemma frames_timesFromDates n zd vd dc : frames n (timesFromDates zd vd dc) (fresh_ref n).
Proof.
  intros h Hn. rewrite timesFromDates_run.
  destruct (dates_of h zd) as [ds|]; [destruct vd|]; cbn;
    rewrite ?take_app_le, ?length_app by lia; cbn;
    (repeat split; [lia|]); try discriminate.
  intros a [= <-]. exists (length h). auto.
Qed.

Lemma check_argument_types_heap locals h : (check_argument_types locals h).1 = h.
Proof. unfold check_argument_types. destruct (checkArgumentTypes locals h); reflexivity. Qed.

Lemma frames_buildCurvePoints n l :
  n <= l -> frames n (_buildCurvePoints (VRef l)) (fun _ => True).
Proof.
  intros Hl. unfold _buildCurvePoints.
  eapply frames_bind; [apply frames_pure, getattr_heap|]. intros times _.
  eapply frames_bind; [apply frames_pure, len_heap|]. intros numTimes _.
  eapply frames_bind.
  { apply frames_for_in. intros acc i.
    eapply frames_bind.
    { eapply frames_bind; [apply frames_pure, getattr_heap|]. intros a _.
      apply frames_pure, getitem_heap. }
    intros t _.
    eapply frames_bind.
    { eapply frames_bind; [apply frames_pure, getattr_heap|]. intros a _.
      apply frames_pure, getitem_heap. }
    intros r _.
    eapply frames_bind; [apply frames_pure, getattr_heap|]. intros f _.
    eapply frames_bind; [apply frames_pure, as_float_heap|]. intros r' _.
    eapply frames_bind; [apply frames_pure, as_float_heap|]. intros t' _.
    apply frames_ret. exact I. }
  intros dfValues _.
  eapply frames_bind.
  { unfold np_array. eapply frames_bind; [apply frames_alloc|]. intros a _.
    apply (frames_ret n (VRef a) (fun _ => True)). exact I. }
  intros a _. apply frames_setattr. exact Hl.
Qed.

Lemma frames_init n l vd zd zr f dc im :
  n <= l -> frames n (__init__ (VRef l) vd zd zr f dc im) (fun _ => True).
Proof.
  intros Hl. unfold __init__.
  eapply frames_bind; [apply frames_pure, check_argument_types_heap|]. intros _ _.
  eapply frames_bind; [apply frames_pure, len_heap|]. intros k _.
  destruct (decide (k = 0)); [apply frames_raise|].
  eapply frames_bind; [apply frames_pure, len_heap|]. intros k1 _.
  eapply frames_bind; [apply frames_pure, len_heap|]. intros k2 _.
  destruct (decide (k1 ≠ k2)); [apply frames_raise|].
  destruct (negb (in_enum "FinFrequencyTypes" f)); [apply frames_raise|].
  destruct (negb (in_enum "FinDayCountTypes" dc)); [apply frames_raise|].
  do 4 (eapply frames_bind; [apply frames_setattr; exact Hl|]; intros _ _).
  eapply frames_bind; [apply frames_timesFromDates|]. intros times _.
  do 3 (eapply frames_bind; [apply frames_setattr; exact Hl|]; intros _ _).
  eapply frames_bind.
  { eapply frames_bind; [apply frames_pure, getattr_heap|]. intros a _.
    unfold testMonotonicity.
    eapply frames_bind; [apply frames_pure, read_nums_heap|]. intros xs _.
    apply (frames_ret n (increasing xs) (fun _ => True)). exact I. }
  intros mono _.
  destruct (negb mono); [apply frames_raise|].
  apply frames_buildCurvePoints. exact Hl.
Qed.

Lemma frames_constructor n vd zd zr f dc im :
  frames n (FinDiscountCurveZeros vd zd zr f dc im) (fresh_ref n).
Proof.
  unfold FinDiscountCurveZeros.
  eapply frames_bind; [apply frames_alloc|]. intros l Hl.
  eapply frames_bind; [apply frames_init; exact Hl|]. intros _ _.
  apply frames_ret. exists l. auto.
Qed.

(** X1.  The constructor call never writes to a cell that existed before
    it: the caller's lists and every other object are as they were, whether
    the call returns or raises; and the store has grown by the new instance at
    least. *)
Theorem constructor_preserves_store vd zd zr f dc im h :
  (forall l c, h !! l = Some c ->
     (FinDiscountCurveZeros vd zd zr f dc im h).1 !! l = Some c) /\
  length h < length (FinDiscountCurveZeros vd zd zr f dc im h).1.
Proof.
  split.
  - intros l c Hl. eapply prefix_lookup_Some; [exact Hl|].
    eapply frames_prefix. apply frames_constructor.
  - unfold FinDiscountCurveZeros. rewrite bind_unfold. unfold alloc at 1. cbv beta iota.
    assert (Hle : length h <= length (h ++ [CObj "FinDiscountCurveZeros" ∅ : cell]))
      by (rewrite length_app; lia).
    destruct (frames_init (length h) (length h) vd zd zr f dc im (le_n _)
                (h ++ [CObj "FinDiscountCurveZeros" ∅]) Hle) as (_ & Hlen & _).
    rewrite length_app in Hlen. cbn [length] in Hlen.
    rewrite bind_unfold.
    destruct (__init__ _ _ _ _ _ _ _ _) as [h1 [e|[]]]; cbn [fst] in *; [lia|].
    unfold mret, M_ret. cbn [fst]. lia.
Qed.

(** ** The retained inputs are the caller's own lists *)

Lemma new_curve_update h (vd zd zr f dc im : pyval) times dfs l c :
  l < length h ->
  <[l := c]> (new_curve h vd zd zr f dc im times dfs) =
    new_curve (<[l := c]> h) vd zd zr f dc im times dfs.
Proof.
  intros Hl. unfold new_curve. rewrite insert_app_l by exact Hl.
  rewrite length_insert. reflexivity.
Qed.

Lemma nums_of_lt h v xs : nums_of h v = Some xs -> exists l, v = VRef l /\ l < length h /\
  h !! l = Some (CNums xs).
Proof.
  destruct v; try discriminate. cbn.
  destruct (h !! l) as [[]|] eqn:Hl; try discriminate. intros [= ->].
  exists l. repeat split; [|exact Hl]. eapply lookup_lt_Some, Hl.
Qed.

Lemma dates_of_lt h v ds : dates_of h v = Some ds -> exists l, v = VRef l /\ l < length h /\
  h !! l = Some (CDates ds).
Proof.
  destruct v; try discriminate. cbn.
  destruct (h !! l) as [[]|] eqn:Hl; try discriminate. intros [= ->].
  exists l. repeat split; [|exact Hl]. eapply lookup_lt_Some, Hl.
Qed.

Lemma field_nums_new_curve h (vd zd zr f dc im : pyval) times dfs rs :
  nums_of h zr = Some rs ->
  let h' := new_curve h vd zd zr f dc im times dfs in
  field_nums h' (VRef (length h)) "_times" = Some times /\
  field_nums h' (VRef (length h)) "_dfValues" = Some dfs /\
  field_nums h' (VRef (length h)) "_zeroRates" = Some rs.
Proof.
  intros Hrs h'. subst h'.
  destruct (curve_attrs_lookup vd zd zr f dc im (length h + 1) (length h + 2))
    as (_ & _ & _ & _ & Ht & Hr & _ & Hdf & _).
  unfold field_nums. rewrite !field_new_curve, Ht, Hr, Hdf. cbn [mbind option_bind].
  repeat split.
  - unfold nums_of, new_curve. rewrite lookup_new1. reflexivity.
  - unfold nums_of, new_curve. rewrite lookup_new2. reflexivity.
  - apply nums_of_app. exact Hrs.
Qed.

(** X2.  A curve the constructor returns holds the two lists it was given,
    not copies: [_zeroDates] and [_zeroRates] are the very references passed
    in, to cells that existed before the call, while [_times] and [_dfValues]
    refer to two arrays the call has allocated.  The valuation date and the
    two selectors are stored as given. *)
Theorem retained_inputs_are_shared vd zd zr f dc im h h' self :
  FinDiscountCurveZeros vd zd zr f dc im h = (h', inr self) ->
  field h' self "_zeroDates" = Some zd /\
  field h' self "_zeroRates" = Some zr /\
  field h' self "_valuationDate" = Some vd /\
  field h' self "_frequencyType" = Some f /\
  field h' self "_dayCountType" = Some dc /\
  (exists ld lr, zd = VRef ld /\ zr = VRef lr /\ ld < length h /\ lr < length h /\
                 ld <> lr) /\
  (exists lt ldf, field h' self "_times" = Some (VRef lt) /\
                  field h' self "_dfValues" = Some (VRef ldf) /\
                  length h <= lt /\ length h <= ldf /\ lt <> ldf).
Proof.
  intros Hc.
  apply constructor_returns_inv in Hc as (times & dfs & Hc & -> & ->).
  apply construction_inr_inv in Hc
    as (vd0 & ds & rs & _ & -> & Hds & Hrs & _ & _ & _ & _ & _ & _ & _).
  destruct (curve_attrs_lookup (VDate vd0) zd zr f dc im (length h + 1) (length h + 2))
    as (Hvd & Hf & Hdc & _ & Ht & Hr & Hd & Hdf & _).
  rewrite !field_new_curve.
  apply dates_of_lt in Hds as (ld & -> & Hld & Hcd).
  apply nums_of_lt in Hrs as (lr & -> & Hlr & Hcr).
  repeat split; try assumption.
  - exists ld, lr. repeat split; try assumption.
    intros ->. rewrite Hcd in Hcr. discriminate.
  - exists (length h + 1), (length h + 2). repeat split; try assumption; lia.
Qed.

(** X3.  Because the rates are shared, an assignment [zeroRates[i] = x]
    made by the caller after the construction is seen through the curve: its
    retained rates and its rendering show the new rate, while its times and
    its discount factors stay those computed from the old one. *)
Theorem rate_update_after_construction vd zd zr f dc im h h' self ds rs i x :
  FinDiscountCurveZeros vd zd zr f dc im h = (h', inr self) ->
  field_dates h' self "_zeroDates" = Some ds ->
  field_nums h' self "_zeroRates" = Some rs ->
  i < length rs ->
  exists h'',
    setitem zr i x h' = (h'', inr ()) /\
    field_nums h'' self "_zeroRates" = Some (<[i := x]> rs) /\
    field_nums h'' self "_times" = field_nums h' self "_times" /\
    field_nums h'' self "_dfValues" = field_nums h' self "_dfValues" /\
    __repr__ self h'' =
      (h'', inr ("FinDiscountCurveZeros" +:+ newline +:+
                 labelToString (VStr "DATES") (VStr "ZERO RATES") +:+
                 observation_lines ds (<[i := x]> rs) +:+
                 labelToString (VStr "FREQUENCY") f)).
Proof.
  intros Hc Hfd Hfr Hi.
  apply constructor_returns_inv in Hc as (times & dfs & Hc & -> & ->).
  apply construction_inr_inv in Hc
    as (vd0 & ds0 & rs0 & _ & -> & Hds & Hrs & _ & Hlen & _ & _ & Htimes & _ & _).
  destruct (field_nums_new_curve h (VDate vd0) zd zr f dc im times dfs rs0 Hrs)
    as (Ht0 & Hd0 & Hr0).
  rewrite Hr0 in Hfr. injection Hfr as <-.
  assert (ds = ds0) as ->.
  { unfold field_dates in Hfd. rewrite field_new_curve in Hfd.
    destruct (curve_attrs_lookup (VDate vd0) zd zr f dc im (length h + 1) (length h + 2))
      as (_ & _ & _ & _ & _ & _ & Hd & _ & _).
    rewrite Hd in Hfd. cbn [mbind option_bind] in Hfd. unfold new_curve in Hfd.
    rewrite (dates_of_app _ _ _ _ Hds) in Hfd. congruence. }
  assert (Hlt : length times = length ds0).
  { rewrite Htimes. unfold year_fractions. apply length_map. }
  pose proof Hds as Hds'. pose proof Hrs as Hrs'.
  apply dates_of_lt in Hds' as (ld & -> & Hld & Hcd).
  apply nums_of_lt in Hrs' as (lr & -> & Hlr & Hcr).
  assert (Hne : ld <> lr) by (intros ->; rewrite Hcd in Hcr; discriminate).
  set (h2 := <[lr := CNums (<[i := x]> rs0)]> h).
  assert (Hlen2 : length h2 = length h) by apply length_insert.
  assert (Hrs2 : nums_of h2 (VRef lr) = Some (<[i := x]> rs0)).
  { unfold nums_of, h2. rewrite list_lookup_insert_eq by exact Hlr. reflexivity. }
  assert (Hds2 : dates_of h2 (VRef ld) = Some ds0).
  { unfold dates_of, h2. rewrite list_lookup_insert_ne by auto.
    unfold loc in *. rewrite Hcd. reflexivity. }
  exists (new_curve h2 (VDate vd0) (VRef ld) (VRef lr) f dc im times dfs).
  destruct (field_nums_new_curve h2 (VDate vd0) (VRef ld) (VRef lr) f dc im times dfs _ Hrs2)
    as (Ht2 & Hd2 & Hr2).
  rewrite Hlen2 in Ht2, Hd2, Hr2.
  repeat split.
  - unfold setitem.
    rewrite (lookup_app_l_Some _ _ _ _ Hcr : new_curve h _ _ _ _ _ _ _ _ !! lr = _).
    rewrite decide_True by exact Hi.
    rewrite new_curve_update by exact Hlr. reflexivity.
  - exact Hr2.
  - rewrite Ht2, Ht0. reflexivity.
  - rewrite Hd2, Hd0. reflexivity.
  - destruct (curve_attrs_lookup (VDate vd0) (VRef ld) (VRef lr) f dc im
                (length h2 + 1) (length h2 + 2))
      as (_ & Hf & _ & _ & Ht & Hr & Hd & _ & _).
    rewrite <- Hlen2.
    erewrite (repr_run _ (length h2) _ _ _ (VRef ld) (VRef lr) f (length times) ds0
                (<[i := x]> rs0));
      [|apply lookup_new0|exact Ht|exact Hd|exact Hr|exact Hf|
       |apply dates_of_app; exact Hds2|apply nums_of_app; exact Hrs2
       |lia|rewrite length_insert; lia].
    + rewrite Hlt, firstn_all.
      rewrite <- (length_insert rs0 i x) in Hlen. rewrite Hlen, firstn_all. reflexivity.
    + unfold seq_len, new_curve. rewrite lookup_new1. reflexivity.
Qed.

(** ** Running [_buildCurvePoints] again *)

Lemma rebuild_run h (vd zd zr f dc im : pyval) times dfs rs :
  nums_of h zr = Some rs -> length times = length rs ->
  exists h'',
    _buildCurvePoints (VRef (length h)) (new_curve h vd zd zr f dc im times dfs) =
      (h'', inr ()) /\
    field h'' (VRef (length h)) "_dfValues" = Some (VRef (length h + 3)) /\
    field_nums h'' (VRef (length h)) "_dfValues" = Some (discount_factors rs times f) /\
    field_nums h'' (VRef (length h)) "_times" = Some times /\
    h'' !! (length h + 2) = Some (CNums dfs).
Proof.
  intros Hrs Hlen.
  destruct (curve_attrs_lookup vd zd zr f dc im (length h + 1) (length h + 2))
    as (_ & Hf & _ & _ & Ht & Hr & _ & _ & _).
  eexists. split.
  - unfold new_curve.
    erewrite (buildCurvePoints_run _ (length h) _ _ (VRef (length h + 1)) zr f times rs);
      [|apply lookup_new0|exact Ht|exact Hr|exact Hf| |apply nums_of_app; exact Hrs
       |exact Hlen].
    + rewrite <- app_assoc. cbn [app]. rewrite insert_new0, length_app. cbn [length].
      reflexivity.
    + unfold nums_of. rewrite lookup_new1. reflexivity.
  - assert (Hfield : forall name,
      field (h ++ [CObj "FinDiscountCurveZeros"
                     (<["_dfValues" := VRef (length h + 3)]>
                        (curve_attrs vd zd zr f dc im (length h + 1) (length h + 2)));
                   CNums times; CNums dfs; CNums (discount_factors rs times f)])
        (VRef (length h)) name =
      (<["_dfValues" := VRef (length h + 3)]>
         (curve_attrs vd zd zr f dc im (length h + 1) (length h + 2))) !! name).
    { intros name. unfold field. erewrite getattr_run by apply lookup_new0.
      destruct (_ !! name); reflexivity. }
    unfold field_nums. rewrite !Hfield.
    repeat split.
    + cbn [mbind option_bind]. unfold nums_of.
      change (_ !! "_dfValues") with (Some (VRef (length h + 3) : pyval)).
      cbn [mbind option_bind]. rewrite lookup_new. reflexivity.
    + change (_ !! "_times") with (Some (VRef (length h + 1) : pyval)).
      cbn [mbind option_bind]. unfold nums_of. rewrite lookup_new1. reflexivity.
    + apply lookup_new2.
Qed.

(** X4.  [_buildCurvePoints], called again on a curve the constructor
    returned, succeeds and binds [_dfValues] to a newly allocated array with
    the same discount factors; the array it referred to before is left as it
    was. *)
Theorem buildCurvePoints_again vd zd zr f dc im h h' self dfs ldf :
  FinDiscountCurveZeros vd zd zr f dc im h = (h', inr self) ->
  field h' self "_dfValues" = Some (VRef ldf) -> h' !! ldf = Some (CNums dfs) ->
  exists h'' ldf',
    _buildCurvePoints self h' = (h'', inr ()) /\
    field h'' self "_dfValues" = Some (VRef ldf') /\ ldf' <> ldf /\
    h'' !! ldf' = Some (CNums dfs) /\ h'' !! ldf = Some (CNums dfs).
Proof.
  intros Hc Hfd Hcell.
  apply constructor_returns_inv in Hc as (times & dfs0 & Hc & -> & ->).
  apply construction_inr_inv in Hc
    as (vd0 & ds & rs & _ & -> & _ & Hrs & _ & Hlen & _ & _ & Htimes & _ & Hdfs).
  rewrite field_new_curve in Hfd.
  destruct (curve_attrs_lookup (VDate vd0) zd zr f dc im (length h + 1) (length h + 2))
    as (_ & _ & _ & _ & _ & _ & _ & Hdf & _).
  rewrite Hdf in Hfd. injection Hfd as <-.
  unfold new_curve in Hcell. rewrite lookup_new2 in Hcell. injection Hcell as <-.
  assert (Hlt : length times = length rs).
  { rewrite Htimes. unfold year_fractions. rewrite length_map. exact Hlen. }
  destruct (rebuild_run h (VDate vd0) zd zr f dc im times dfs0 rs Hrs Hlt)
    as (h'' & Hrun & Hf & Hfn & _ & Hold).
  exists h'', (length h + 3). repeat split; try assumption; [lia|].
  unfold field_nums in Hfn. rewrite Hf in Hfn. cbn [mbind option_bind] in Hfn.
  unfold nums_of in Hfn. rewrite Hdfs. unfold loc in *.
  destruct (h'' !! (length h + 3)) as [[]|]; try discriminate. congruence.
Qed.

(** X5.  The discount factors follow the retained rates only when
    [_buildCurvePoints] is run again: after the caller's assignment
    [zeroRates[i] = x], running it gives, at every index, the converter
    applied to the updated rate and the unchanged time. *)
Theorem rebuild_after_rate_update vd zd zr f dc im h h' self times rs i x :
  FinDiscountCurveZeros vd zd zr f dc im h = (h', inr self) ->
  field_nums h' self "_times" = Some times ->
  field_nums h' self "_zeroRates" = Some rs ->
  i < length rs ->
  exists h1 h2,
    setitem zr i x h' = (h1, inr ()) /\
    _buildCurvePoints self h1 = (h2, inr ()) /\
    field_nums h2 self "_dfValues" = Some (discount_factors (<[i := x]> rs) times f) /\
    field_nums h2 self "_times" = Some times.
Proof.
  intros Hc Hft Hfr Hi.
  apply constructor_returns_inv in Hc as (times0 & dfs & Hc & -> & ->).
  apply construction_inr_inv in Hc
    as (vd0 & ds0 & rs0 & _ & -> & _ & Hrs & _ & Hlen & _ & _ & Htimes & _ & _).
  destruct (field_nums_new_curve h (VDate vd0) zd zr f dc im times0 dfs rs0 Hrs)
    as (Ht0 & _ & Hr0).
  rewrite Hr0 in Hfr. injection Hfr as <-. rewrite Ht0 in Hft. injection Hft as <-.
  assert (Hlt : length times0 = length rs0).
  { rewrite Htimes. unfold year_fractions. rewrite length_map. exact Hlen. }
  pose proof Hrs as Hrs'. apply nums_of_lt in Hrs' as (lr & -> & Hlr & Hcr).
  set (h2 := <[lr := CNums (<[i := x]> rs0)]> h).
  assert (Hlen2 : length h2 = length h) by apply length_insert.
  assert (Hrs2 : nums_of h2 (VRef lr) = Some (<[i := x]> rs0)).
  { unfold nums_of, h2. rewrite list_lookup_insert_eq by exact Hlr. reflexivity. }
  destruct (rebuild_run h2 (VDate vd0) zd (VRef lr) f dc im times0 dfs (<[i := x]> rs0) Hrs2)
    as (h'' & Hrun & _ & Hfn & Hft & _); [rewrite length_insert; exact Hlt|].
  rewrite Hlen2 in Hrun, Hfn, Hft.
  exists (new_curve h2 (VDate vd0) zd (VRef lr) f dc im times0 dfs), h''.
  repeat split; try assumption.
  unfold setitem.
  rewrite (lookup_app_l_Some _ _ _ _ Hcr : new_curve h _ _ _ _ _ _ _ _ !! lr = _).
  rewrite decide_True by exact Hi.
  rewrite new_curve_update by exact Hlr. reflexivity.
Qed.

(** ** [bump] on any object that carries [_discountFactors] *)

Lemma for_in_app {A} (idx1 idx2 : list nat) (body : A -> nat -> M A) acc h :
  for_in (idx1 ++ idx2) body acc h =
    (for_in idx1 body acc ≫= for_in idx2 body) h.
Proof.
  revert acc h. induction idx1 as [|i idx1 IH]; intros acc h; cbn [app for_in].
  - reflexivity.
  - rewrite !bind_unfold. destruct (body acc i h) as [h1 [e|a]]; [reflexivity|].
    rewrite IH, bind_unfold. reflexivity.
Qed.

Lemma scaled_upto_step_le bumpSize dfs ts a d t :
  dfs !! a = Some d -> ts !! a = Some t ->
  scaled_upto bumpSize dfs ts a !! a = Some d /\
  <[a := (d * exp (- bumpSize * t))%R]> (scaled_upto bumpSize dfs ts a) =
    scaled_upto bumpSize dfs ts (S a).
Proof.
  intros Hd Ht. unfold scaled_upto, scaled.
  pose proof (lookup_lt_Some _ _ _ Hd) as Had.
  pose proof (lookup_lt_Some _ _ _ Ht) as Hat.
  assert (length (zip_with (fun d t => d * exp (- bumpSize * t))%R (take a dfs) (take a ts))
          = a) as Hp.
  { rewrite length_zip_with, !length_take. lia. }
  split.
  - rewrite lookup_app_r by (rewrite Hp; lia).
    rewrite Hp, Nat.sub_diag, (drop_S _ _ _ Hd). reflexivity.
  - rewrite (take_S_r _ _ _ Hd), (take_S_r _ _ _ Ht).
    rewrite zip_with_app by (rewrite !length_take; lia).
    rewrite <- app_assoc. cbn [zip_with app].
    rewrite (drop_S _ _ _ Hd).
    rewrite <- Hp at 1. rewrite <- (Nat.add_0_r (length _)), insert_app_r. reflexivity.
Qed.

Lemma bump_loop_le h bumpSize dfs ts k :
  forall n a, a + n <= length ts -> a + n <= length dfs ->
  for_in (seq a n) (bump_body (VRef (length h)) (VRef (length h + 1)) bumpSize) ()
    (h ++ CNums ts :: CNums (scaled_upto bumpSize dfs ts a) :: k) =
    (h ++ CNums ts :: CNums (scaled_upto bumpSize dfs ts (a + n)) :: k, inr ()).
Proof.
  induction n as [|n IH]; intros a Han Had.
  - rewrite Nat.add_0_r. reflexivity.
  - destruct (lookup_lt_is_Some_2 ts a) as [t Hta]; [lia|].
    destruct (lookup_lt_is_Some_2 dfs a) as [d Hda]; [lia|].
    destruct (scaled_upto_step_le bumpSize dfs ts a d t Hda Hta) as [Hlk Hins].
    cbn [seq for_in]. rewrite bind_unfold. unfold bump_body at 1.
    rewrite bind_unfold, bind_unfold. unfold getitem at 1.
    rewrite lookup_new0, Hta. cbv beta iota. unfold as_float at 1, mret at 1, M_ret at 1.
    rewrite bind_unfold, bind_unfold. unfold getitem at 1.
    rewrite lookup_new1, Hlk. cbv beta iota. unfold as_float at 1, mret at 1, M_ret at 1.
    unfold setitem. rewrite lookup_new1.
    rewrite decide_True by (apply lookup_lt_is_Some_1; eauto).
    rewrite Hins. cbv beta iota.
    replace (<[length h + 1 := CNums (scaled_upto bumpSize dfs ts (S a))]>
               (h ++ CNums ts :: CNums (scaled_upto bumpSize dfs ts a) :: k))
      with (h ++ CNums ts :: CNums (scaled_upto bumpSize dfs ts (S a)) :: k)
      by (rewrite insert_app_r; reflexivity).
    rewrite IH by lia. replace (S a + n) with (a + S n) by lia. reflexivity.
Qed.

Lemma scaled_upto_length bumpSize dfs ts a :
  a <= length ts -> a <= length dfs -> length (scaled_upto bumpSize dfs ts a) = length dfs.
Proof.
  intros Hat Had. unfold scaled_upto, scaled.
  rewrite length_app, length_zip_with, !length_take, length_drop. lia.
Qed.

Lemma scaled_upto_below bumpSize dfs ts a i d t :
  i < a -> dfs !! i = Some d -> ts !! i = Some t ->
  scaled_upto bumpSize dfs ts a !! i = Some (d * exp (- bumpSize * t))%R.
Proof.
  intros Hi Hd Ht. unfold scaled_upto, scaled.
  pose proof (lookup_lt_Some _ _ _ Hd). pose proof (lookup_lt_Some _ _ _ Ht).
  rewrite lookup_app_l by (rewrite length_zip_with, !length_take; lia).
  rewrite lookup_zip_with, !lookup_take_lt by exact Hi. rewrite Hd. cbn. rewrite Ht.
  reflexivity.
Qed.

Lemma scaled_upto_above bumpSize dfs ts a i :
  a <= length ts -> a <= length dfs -> a <= i ->
  scaled_upto bumpSize dfs ts a !! i = dfs !! i.
Proof.
  intros Hat Had Hi. unfold scaled_upto, scaled.
  assert (Hp : length (zip_with (fun d t => d * exp (- bumpSize * t))%R
                         (take a dfs) (take a ts)) = a)
    by (rewrite length_zip_with, !length_take; lia).
  rewrite lookup_app_r by (rewrite Hp; lia). rewrite Hp, lookup_drop.
  f_equal. lia.
Qed.

Lemma scaled_upto_zero dfs ts a :
  a <= length ts -> a <= length dfs -> scaled_upto 0 dfs ts a = dfs.
Proof.
  intros Hat Had. unfold scaled_upto.
  rewrite scaled_zero by (rewrite !length_take; lia). apply take_drop.
Qed.

Lemma field_nums_inv h self name xs :
  field_nums h self name = Some xs ->
  exists l cls attrs v, self = VRef l /\ h !! l = Some (CObj cls attrs) /\
    attrs !! name = Some v /\ nums_of h v = Some xs.
Proof.
  unfold field_nums. destruct (field h self name) as [v|] eqn:Hf; [|discriminate].
  cbn [mbind option_bind]. intros Hn.
  apply field_inv in Hf as (l & cls & attrs & -> & Hl & Hv). eauto 10.
Qed.

Lemma bump_run_le h l cls attrs vt vdf vd im ts dfs bumpSize :
  h !! l = Some (CObj cls attrs) ->
  attrs !! "_times" = Some vt -> nums_of h vt = Some ts ->
  attrs !! "_discountFactors" = Some vdf -> nums_of h vdf = Some dfs ->
  length ts <= length dfs ->
  attrs !! "_valuationDate" = Some vd -> attrs !! "_interpMethod" = Some im ->
  bump (VRef l) bumpSize h =
    (h ++ [CNums ts; CNums (scaled_upto bumpSize dfs ts (length ts));
           CObj "FinDiscountCurve"
             (base_attrs vd (VRef (length h)) (VRef (length h + 1)) im)],
     inr (VRef (length h + 2))).
Proof.
  intros Hl Ht Hts Hdf Hdfs Hlen Hvd Him. unfold bump.
  rewrite bind_unfold, bind_unfold, (getattr_run _ _ _ _ _ Hl), Ht. cbv beta iota.
  rewrite (copy_nums _ _ _ Hts). cbv beta iota.
  assert (Hl1 : (h ++ [CNums ts]) !! l = Some (CObj cls attrs))
    by (apply lookup_app_l_Some; exact Hl).
  rewrite bind_unfold, bind_unfold, (getattr_run _ _ _ _ _ Hl1), Hdf. cbv beta iota.
  rewrite (copy_nums _ _ dfs) by (apply nums_of_app; exact Hdfs). cbv beta iota.
  rewrite <- app_assoc, length_app. cbn [app length].
  assert (Hl2 : (h ++ [CNums ts; CNums dfs]) !! l = Some (CObj cls attrs))
    by (apply lookup_app_l_Some; exact Hl).
  rewrite bind_unfold, bind_unfold, (getattr_run _ _ _ _ _ Hl2), Ht. cbv beta iota.
  rewrite len_seq_len, (seq_len_nums _ _ ts) by (apply nums_of_app; exact Hts).
  cbv beta iota. rewrite bind_unfold. unfold for_range.
  change (CNums dfs) with (CNums (scaled_upto bumpSize dfs ts 0) : cell).
  pose proof (bump_loop_le h bumpSize dfs ts [] (length ts) 0 (le_n _) Hlen) as HL.
  unfold bump_body in HL. rewrite HL. clear HL. cbv beta iota.
  assert (Hl3 : (h ++ [CNums ts; CNums (scaled_upto bumpSize dfs ts (0 + length ts))]) !! l
                = Some (CObj cls attrs))
    by (apply lookup_app_l_Some; exact Hl).
  rewrite bind_unfold, (getattr_run _ _ _ _ _ Hl3), Hvd. cbv beta iota.
  rewrite bind_unfold, (getattr_run _ _ _ _ _ Hl3), Him. cbv beta iota.
  rewrite FinDiscountCurve_run, <- app_assoc, length_app. cbn [app length Nat.add].
  reflexivity.
Qed.

(** X6.  On any object whose [_times] and [_discountFactors] are arrays
    with at least as many discount factors as times, and which has a valuation
    date and an interpolation method, [bump] returns a new object.  The call
    adds three cells to the store: a copy of the times, a new array of
    discount factors and the object returned, to which the base-class
    constructor has given these two new arrays as its times and discount
    factors, with the source's valuation date and interpolation method.  In
    the new array each factor that has a time is multiplied by
    [exp (- bumpSize * t)] and any further factor is copied as it is; the
    source's own discount factors are unchanged. *)
Theorem bump_with_discount_factors self bumpSize h ts dfs vd im :
  field_nums h self "_times" = Some ts ->
  field_nums h self "_discountFactors" = Some dfs ->
  length ts <= length dfs ->
  field h self "_valuationDate" = Some vd ->
  field h self "_interpMethod" = Some im ->
  exists h' dfs',
    bump self bumpSize h = (h', inr (VRef (length h + 2))) /\
    length h' = length h + 3 /\
    field h' (VRef (length h + 2)) "_times" = Some (VRef (length h)) /\
    field h' (VRef (length h + 2)) "_dfValues" = Some (VRef (length h + 1)) /\
    field h' (VRef (length h + 2)) "_valuationDate" = Some vd /\
    field h' (VRef (length h + 2)) "_interpMethod" = Some im /\
    h' !! length h = Some (CNums ts) /\
    h' !! (length h + 1) = Some (CNums dfs') /\
    length dfs' = length dfs /\
    (forall i d t, dfs !! i = Some d -> ts !! i = Some t ->
       dfs' !! i = Some (d * exp (- bumpSize * t))%R) /\
    (forall i, length ts <= i -> dfs' !! i = dfs !! i) /\
    field_nums h' self "_discountFactors" = Some dfs.
Proof.
  intros Hts Hdfs Hlen Hvd Him.
  apply field_nums_inv in Hts as (l & cls & attrs & vt & -> & Hl & Ht & Hts).
  apply field_nums_inv in Hdfs as (l' & cls' & attrs' & vdf & [= <-] & Hl' & Hdf & Hdfs).
  rewrite Hl' in Hl. injection Hl as -> ->.
  apply field_inv in Hvd as (l1 & cls1 & attrs1 & [= <-] & Hl1 & Hvd).
  rewrite Hl1 in Hl'. injection Hl' as -> ->.
  apply field_inv in Him as (l2 & cls2 & attrs2 & [= <-] & Hl2 & Him).
  rewrite Hl2 in Hl1. injection Hl1 as -> ->.
  eexists. exists (scaled_upto bumpSize dfs ts (length ts)).
  split; [apply (bump_run_le _ _ _ _ _ _ _ _ _ _ _ Hl2 Ht Hts Hdf Hdfs Hlen Hvd Him)|].
  split; [rewrite length_app; reflexivity|].
  assert (Hnew : forall name,
    field (h ++ [CNums ts; CNums (scaled_upto bumpSize dfs ts (length ts));
                 CObj "FinDiscountCurve"
                   (base_attrs vd (VRef (length h)) (VRef (length h + 1)) im)])
      (VRef (length h + 2)) name =
    base_attrs vd (VRef (length h)) (VRef (length h + 1)) im !! name).
  { intros name. unfold field. erewrite getattr_run by apply lookup_new2.
    destruct (_ !! name); reflexivity. }
  rewrite !Hnew.
  split; [reflexivity|]. split; [reflexivity|].
  split; [reflexivity|]. split; [reflexivity|].
  split; [apply lookup_new0|]. split; [apply lookup_new1|].
  split; [apply scaled_upto_length; [lia|exact Hlen]|].
  split.
  { intros i d t Hd Hti. apply scaled_upto_below; try assumption.
    eapply lookup_lt_Some, Hti. }
  split; [intros i Hi; apply scaled_upto_above; [lia|exact Hlen|exact Hi]|].
  unfold field_nums, field.
  erewrite getattr_run by (apply lookup_app_l_Some; exact Hl2).
  rewrite Hdf. cbn [snd mbind option_bind]. apply nums_of_app. exact Hdfs.
Qed.

(** X7.  Under the same conditions a zero shift gives a new array holding
    exactly the source's discount factors. *)
Theorem bump_zero_shift_with_discount_factors self h ts dfs vd im :
  field_nums h self "_times" = Some ts ->
  field_nums h self "_discountFactors" = Some dfs ->
  length ts <= length dfs ->
  field h self "_valuationDate" = Some vd ->
  field h self "_interpMethod" = Some im ->
  exists h',
    bump self 0 h = (h', inr (VRef (length h + 2))) /\
    h' !! (length h + 1) = Some (CNums dfs) /\ h !! (length h + 1) = None.
Proof.
  intros Hts Hdfs Hlen Hvd Him.
  apply field_nums_inv in Hts as (l & cls & attrs & vt & -> & Hl & Ht & Hts).
  apply field_nums_inv in Hdfs as (l' & cls' & attrs' & vdf & [= <-] & Hl' & Hdf & Hdfs).
  rewrite Hl' in Hl. injection Hl as -> ->.
  apply field_inv in Hvd as (l1 & cls1 & attrs1 & [= <-] & Hl1 & Hvd).
  rewrite Hl1 in Hl'. injection Hl' as -> ->.
  apply field_inv in Him as (l2 & cls2 & attrs2 & [= <-] & Hl2 & Him).
  rewrite Hl2 in Hl1. injection Hl1 as -> ->.
  eexists.
  split; [apply (bump_run_le _ _ _ _ _ _ _ _ _ _ _ Hl2 Ht Hts Hdf Hdfs Hlen Hvd Him)|].
  split.
  - rewrite lookup_new1, scaled_upto_zero by (lia || exact Hlen). reflexivity.
  - apply lookup_ge_None_2. lia.
Qed.

(** X8.  With fewer discount factors than times [bump] raises
    [IndexError]: the loop runs over the indices of the times and reads a
    discount factor at each. *)
Theorem bump_with_too_few_discount_factors self bumpSize h ts dfs :
  field_nums h self "_times" = Some ts ->
  field_nums h self "_discountFactors" = Some dfs ->
  length dfs < length ts ->
  (bump self bumpSize h).2 = inl IndexError.
Proof.
  intros Hts Hdfs Hlen.
  apply field_nums_inv in Hts as (l & cls & attrs & vt & -> & Hl & Ht & Hts).
  apply field_nums_inv in Hdfs as (l' & cls' & attrs' & vdf & [= <-] & Hl' & Hdf & Hdfs).
  rewrite Hl' in Hl. injection Hl as -> ->.
  unfold bump.
  rewrite bind_unfold, bind_unfold, (getattr_run _ _ _ _ _ Hl'), Ht. cbv beta iota.
  rewrite (copy_nums _ _ _ Hts). cbv beta iota.
  assert (Hl1 : (h ++ [CNums ts]) !! l = Some (CObj cls attrs))
    by (apply lookup_app_l_Some; exact Hl').
  rewrite bind_unfold, bind_unfold, (getattr_run _ _ _ _ _ Hl1), Hdf. cbv beta iota.
  rewrite (copy_nums _ _ dfs) by (apply nums_of_app; exact Hdfs). cbv beta iota.
  rewrite <- app_assoc, length_app. cbn [app length].
  assert (Hl2 : (h ++ [CNums ts; CNums dfs]) !! l = Some (CObj cls attrs))
    by (apply lookup_app_l_Some; exact Hl').
  rewrite bind_unfold, bind_unfold, (getattr_run _ _ _ _ _ Hl2), Ht. cbv beta iota.
  rewrite len_seq_len, (seq_len_nums _ _ ts) by (apply nums_of_app; exact Hts).
  cbv beta iota. rewrite bind_unfold. unfold for_range.
  replace (length ts) with (length dfs + S (length ts - S (length dfs))) at 1 by lia.
  rewrite seq_app, for_in_app, bind_unfold.
  change (CNums dfs) with (CNums (scaled_upto bumpSize dfs ts 0) : cell).
  pose proof (bump_loop_le h bumpSize dfs ts [] (length dfs) 0) as HL.
  unfold bump_body in HL. rewrite HL by lia. clear HL. cbv beta iota.
  cbn [seq for_in Nat.add].
  destruct (lookup_lt_is_Some_2 ts (length dfs)) as [t Ht']; [lia|].
  rewrite !bind_unfold. unfold getitem at 1. rewrite lookup_new0, Ht'. cbv beta iota.
  unfold as_float at 1, mret at 1, M_ret at 1. cbv beta iota.
  rewrite !bind_unfold. unfold getitem at 1. rewrite lookup_new1.
  rewrite (lookup_ge_None_2 (scaled_upto bumpSize dfs ts (length dfs)))
    by (rewrite scaled_upto_length; lia).
  reflexivity.
Qed.

(** X9.  The work-around for the missing attribute: after the assignment
    [curve._discountFactors = curve._dfValues] on a curve the constructor
    returned, [bump] returns, and the new array of discount factors holds, at
    every index, the converter's value for the rate and the time of that
    index multiplied by [exp (- bumpSize * t)].  The curve's own discount
    factors are unchanged, although the two attributes share one array. *)
Theorem bump_after_assigning_discount_factors
    vd zd zr f dc im h h' self bumpSize times rs :
  FinDiscountCurveZeros vd zd zr f dc im h = (h', inr self) ->
  field_nums h' self "_times" = Some times ->
  field_nums h' self "_zeroRates" = Some rs ->
  exists h1 h2 dfs',
    (getattr self "_dfValues" ≫= setattr self "_discountFactors") h' = (h1, inr ()) /\
    bump self bumpSize h1 = (h2, inr (VRef (length h1 + 2))) /\
    h2 !! length h1 = Some (CNums times) /\
    h2 !! (length h1 + 1) = Some (CNums dfs') /\
    (forall i r t, rs !! i = Some r -> times !! i = Some t ->
       dfs' !! i = Some (zeroToDf r t f * exp (- bumpSize * t))%R) /\
    field_nums h2 self "_dfValues" = field_nums h' self "_dfValues".
Proof.
  intros Hc Hft Hfr.
  apply constructor_returns_inv in Hc as (times0 & dfs & Hc & -> & ->).
  apply construction_inr_inv in Hc
    as (vd0 & ds0 & rs0 & _ & -> & _ & Hrs & _ & Hlen & _ & _ & Htimes & _ & Hdfs).
  destruct (field_nums_new_curve h (VDate vd0) zd zr f dc im times0 dfs rs0 Hrs)
    as (Ht0 & Hd0 & Hr0).
  rewrite Hr0 in Hfr. injection Hfr as <-. rewrite Ht0 in Hft. injection Hft as <-.
  assert (Hlt : length times0 = length rs0).
  { rewrite Htimes. unfold year_fractions. rewrite length_map. exact Hlen. }
  assert (Hld : length dfs = length times0).
  { rewrite Hdfs. unfold discount_factors. rewrite length_zip_with. lia. }
  set (attrs' := <["_discountFactors" := VRef (length h + 2)]>
                   (curve_attrs (VDate vd0) zd zr f dc im (length h + 1) (length h + 2))).
  set (h1 := h ++ [CObj "FinDiscountCurveZeros" attrs'; CNums times0; CNums dfs]).
  assert (Hlen1 : length h1 = length h + 3) by (unfold h1; rewrite length_app; reflexivity).
  assert (Hrun : bump (VRef (length h)) bumpSize h1 =
            (h1 ++ [CNums times0;
                    CNums (scaled_upto bumpSize dfs times0 (length times0));
                    CObj "FinDiscountCurve"
                      (base_attrs (VDate vd0) (VRef (length h1)) (VRef (length h1 + 1)) im)],
             inr (VRef (length h1 + 2)))).
  { apply (bump_run_le h1 (length h) "FinDiscountCurveZeros" attrs'
             (VRef (length h + 1)) (VRef (length h + 2)) (VDate vd0) im times0 dfs).
    - apply lookup_new0.
    - reflexivity.
    - unfold nums_of, h1. rewrite lookup_new1. reflexivity.
    - reflexivity.
    - unfold nums_of, h1. rewrite lookup_new2. reflexivity.
    - lia.
    - reflexivity.
    - reflexivity. }
  exists h1. eexists. exists (scaled_upto bumpSize dfs times0 (length times0)).
  split.
  { unfold new_curve. rewrite bind_unfold.
    erewrite getattr_run by apply lookup_new0.
    change (_ !! "_dfValues") with (Some (VRef (length h + 2) : pyval)). cbv beta iota.
    erewrite setattr_run by apply lookup_new0. rewrite insert_new0. reflexivity. }
  split; [exact Hrun|]. split; [apply lookup_new0|]. split; [apply lookup_new1|].
  split.
  { intros i r t Hr Ht. apply scaled_upto_below; [eapply lookup_lt_Some, Ht| |exact Ht].
    rewrite Hdfs. unfold discount_factors. rewrite lookup_zip_with, Hr. cbn. rewrite Ht.
    reflexivity. }
  rewrite Hd0. unfold field_nums, field.
  erewrite getattr_run by (apply lookup_app_l_Some; apply lookup_new0).
  change (attrs' !! "_dfValues") with (Some (VRef (length h + 2) : pyval)).
  cbn [snd mbind option_bind]. apply nums_of_app. unfold nums_of, h1.
  rewrite lookup_new2. reflexivity.
Qed.

(** ** The argument-type check comes first *)

(** X10.  When the argument-type check raises, the constructor raises that
    exception and no other: the check is made before the dates are looked
    at, so it takes precedence over every validation error. *)
Theorem argument_check_comes_first vd zd zr f dc im h e :
  argument_check h vd zd zr f dc im = Some e ->
  (FinDiscountCurveZeros vd zd zr f dc im h).2 = inl e.
Proof.
  intros Hchk. apply constructor_raises. unfold construction. rewrite Hchk. reflexivity.
Qed.

(** ** The rendering of any object *)

(** X11.  [__repr__] takes the number of observation lines from
    [len(self._times)], not from the retained lists: on any object whose
    retained lists have at least that many elements it shows the first
    [len(self._times)] dates and rates, under the name of the object's own
    class. *)
Theorem rendering_counts_times self h cls vt n ds rs f :
  type_name self h = (h, inr cls) ->
  field h self "_times" = Some vt -> seq_len h vt = Some n ->
  field_dates h self "_zeroDates" = Some ds ->
  field_nums h self "_zeroRates" = Some rs ->
  field h self "_frequencyType" = Some f ->
  n <= length ds -> n <= length rs ->
  __repr__ self h =
    (h, inr (cls +:+ newline +:+ labelToString (VStr "DATES") (VStr "ZERO RATES") +:+
             observation_lines (take n ds) (take n rs) +:+
             labelToString (VStr "FREQUENCY") f)).
Proof.
  intros Hty Ht Hn Hds Hrs Hf Hnd Hnr.
  apply field_inv in Ht as (l & cls0 & attrs & -> & Hl & Ht).
  unfold type_name in Hty. rewrite Hl in Hty. injection Hty as <-.
  apply field_inv in Hf as (l1 & cls1 & attrs1 & [= <-] & Hl1 & Hf).
  rewrite Hl1 in Hl. injection Hl as -> ->.
  apply field_nums_inv in Hrs as (l2 & cls2 & attrs2 & zr & [= <-] & Hl2 & Hr & Hrs).
  rewrite Hl2 in Hl1. injection Hl1 as -> ->.
  unfold field_dates in Hds.
  destruct (field h (VRef l) "_zeroDates") as [zd|] eqn:Hd; [|discriminate].
  cbn [mbind option_bind] in Hds.
  apply field_inv in Hd as (l3 & cls3 & attrs3 & [= <-] & Hl3 & Hd).
  rewrite Hl3 in Hl2. injection Hl2 as -> ->.
  eapply (repr_run h l _ _ vt zd zr f n ds rs); eassumption.
Qed.

(** X12.  When a retained list is shorter than the times, [__repr__]
    raises [IndexError]. *)
Theorem rendering_with_short_lists self h vt n ds rs :
  field h self "_times" = Some vt -> seq_len h vt = Some n ->
  field_dates h self "_zeroDates" = Some ds ->
  field_nums h self "_zeroRates" = Some rs ->
  length ds < n \/ length rs < n ->
  (__repr__ self h).2 = inl IndexError.
Proof.
  intros Ht Hn Hds Hrs Hshort.
  apply field_inv in Ht as (l & cls & attrs & -> & Hl & Ht).
  apply field_nums_inv in Hrs as (l2 & cls2 & attrs2 & zr & [= <-] & Hl2 & Hr & Hrs).
  rewrite Hl2 in Hl. injection Hl as -> ->.
  unfold field_dates in Hds.
  destruct (field h (VRef l) "_zeroDates") as [zd|] eqn:Hd; [|discriminate].
  cbn [mbind option_bind] in Hds.
  apply field_inv in Hd as (l3 & cls3 & attrs3 & [= <-] & Hl3 & Hd).
  rewrite Hl3 in Hl2. injection Hl2 as -> ->.
  set (m := Nat.min (length ds) (length rs)).
  assert (Hm : m < n) by lia.
  unfold __repr__.
  rewrite bind_unfold. unfold type_name at 1. rewrite Hl3. cbv beta iota zeta.
  rewrite bind_unfold, bind_unfold, (getattr_run _ _ _ _ _ Hl3), Ht. cbv beta iota.
  rewrite len_seq_len, Hn. cbv beta iota.
  rewrite bind_unfold. unfold for_range.
  replace n with (m + S (n - S m)) by lia.
  rewrite seq_app, for_in_app, bind_unfold.
  pose proof (repr_loop h l _ _ zd zr ds rs Hl3 Hd Hr Hds Hrs m 0) as HL.
  unfold repr_body in HL. rewrite HL by lia. clear HL. cbv beta iota.
  cbn [seq for_in Nat.add].
  rewrite !bind_unfold, (getattr_run _ _ _ _ _ Hl3), Hd. cbv beta iota.
  destruct (decide (length ds <= length rs)) as [Hle|Hgt].
  - assert (Hnone : ds !! m = None) by (apply lookup_ge_None_2; lia).
    apply dates_of_lt in Hds as (ld & -> & _ & Hcd).
    unfold getitem at 1. unfold loc in *. rewrite Hcd, Hnone. reflexivity.
  - destruct (lookup_lt_is_Some_2 ds m) as [d Hdm]; [lia|].
    rewrite (getitem_dates _ _ _ _ _ Hds Hdm). cbv beta iota.
    rewrite !bind_unfold, (getattr_run _ _ _ _ _ Hl3), Hr. cbv beta iota.
    assert (Hnone : rs !! m = None) by (apply lookup_ge_None_2; lia).
    apply nums_of_lt in Hrs as (lr & -> & _ & Hcr).
    unfold getitem at 1. unfold loc in *. rewrite Hcr, Hnone. reflexivity.
Qed.

(** ** What a returned curve says of the arguments *)

(** X13.  A constructor call returns only if every check has passed: the
    argument-type check accepted the call, the valuation date is a date, the
    dates are a non-empty list of dates, the rates a list of floats of the same
    length, both selectors are members of their enumerations and the times
    increase strictly.  In every other case the call raises. *)
Theorem returned_curve_was_validated vd zd zr f dc im h h' self :
  FinDiscountCurveZeros vd zd zr f dc im h = (h', inr self) ->
  argument_check h vd zd zr f dc im = None /\
  exists vd0 ds rs,
    vd = VDate vd0 /\ dates_of h zd = Some ds /\ nums_of h zr = Some rs /\
    length ds <> 0 /\ length ds = length rs /\
    in_enum "FinFrequencyTypes" f = true /\ in_enum "FinDayCountTypes" dc = true /\
    increasing (year_fractions vd0 ds dc) = true.
Proof.
  intros Hc.
  apply constructor_returns_inv in Hc as (times & dfs & Hc & _ & _).
  apply construction_inr_inv in Hc
    as (vd0 & ds & rs & Hchk & -> & Hds & Hrs & Hn & Hlen & Hf & Hdc & -> & Hinc & _).
  split; [exact Hchk|]. exists vd0, ds, rs. repeat split; assumption.
Qed.

(** ** The rates are not validated *)

Lemma seq_len_update h lr (rs rs' : list R) v :
  h !! lr = Some (CNums rs) -> length rs' = length rs ->
  seq_len (<[lr := CNums rs']> h) v = seq_len h v.
Proof.
  intros Hlr Hlen. destruct v; try reflexivity. cbn.
  destruct (decide (lr = l)) as [->|Hne].
  - rewrite list_lookup_insert_eq by (eapply lookup_lt_Some, Hlr).
    unfold loc in *. rewrite Hlr, Hlen. reflexivity.
  - rewrite list_lookup_insert_ne by exact Hne. reflexivity.
Qed.

Lemma dates_of_update h lr (rs rs' : list R) v :
  h !! lr = Some (CNums rs) ->
  dates_of (<[lr := CNums rs']> h) v = dates_of h v.
Proof.
  intros Hlr. destruct v; try reflexivity. cbn.
  destruct (decide (lr = l)) as [->|Hne].
  - rewrite list_lookup_insert_eq by (eapply lookup_lt_Some, Hlr).
    unfold loc in *. rewrite Hlr. reflexivity.
  - rewrite list_lookup_insert_ne by exact Hne. reflexivity.
Qed.

(** X14.  The constructor never looks at the values of the rates, only at
    how many there are: replacing the rates by as many other floats changes
    neither whether the call returns nor, when it raises, the exception,
    provided the argument-type check accepts both calls. *)
Theorem rates_are_not_validated vd zd lr f dc im h rs rs' :
  h !! lr = Some (CNums rs) -> length rs' = length rs ->
  argument_check h vd zd (VRef lr) f dc im = None ->
  argument_check (<[lr := CNums rs']> h) vd zd (VRef lr) f dc im = None ->
  (FinDiscountCurveZeros vd zd (VRef lr) f dc im (<[lr := CNums rs']> h)).2 =
    (FinDiscountCurveZeros vd zd (VRef lr) f dc im h).2.
Proof.
  intros Hlr Hlen Hchk Hchk'.
  rewrite !constructor_outcome, Hchk, Hchk'. unfold construction.
  rewrite !(seq_len_update h lr rs rs' _ Hlr Hlen), (dates_of_update h lr rs rs' _ Hlr).
  rewrite length_insert.
  destruct (seq_len h zd) as [n|]; [|reflexivity].
  destruct (decide (n = 0)); [reflexivity|].
  destruct (seq_len h (VRef lr)) as [m|]; [|reflexivity].
  destruct (decide (n ≠ m)); [reflexivity|].
  destruct (negb (in_enum "FinFrequencyTypes" f)); [reflexivity|].
  destruct (negb (in_enum "FinDayCountTypes" dc)); [reflexivity|].
  destruct (dates_of h zd) as [ds|]; [|reflexivity].
  destruct vd; try reflexivity.
  destruct (negb (increasing _)); [reflexivity|].
  unfold nums_of. rewrite list_lookup_insert_eq by (eapply lookup_lt_Some, Hlr).
  unfold loc in *. rewrite Hlr. reflexivity.
Qed.

(** ** The curve points *)

(** X15.  [_buildCurvePoints] pairs rates and times by index: a curve the
    constructor returns has one discount factor per rate, and the factor at
    index [i] is the rate converter applied to the rate at [i], the time at
    [i] and the curve's frequency. *)
Theorem discount_factors_from_converter vd zd zr f dc im h h' self :
  FinDiscountCurveZeros vd zd zr f dc im h = (h', inr self) ->
  exists times dfs rs,
    field_nums h' self "_times" = Some times /\
    field_nums h' self "_dfValues" = Some dfs /\
    field_nums h' self "_zeroRates" = Some rs /\
    length dfs = length rs /\
    forall i, i < length rs ->
      exists r t, rs !! i = Some r /\ times !! i = Some t /\
                  dfs !! i = Some (zeroToDf r t f).
Proof.
  intros Hc.
  apply constructor_returns_inv in Hc as (times & dfs & Hc & -> & ->).
  apply construction_inr_inv in Hc
    as (vd0 & ds & rs & _ & -> & _ & Hrs & _ & Hlen & _ & _ & Htimes & _ & Hdfs).
  destruct (field_nums_new_curve h (VDate vd0) zd zr f dc im times dfs rs Hrs)
    as (Ht0 & Hd0 & Hr0).
  assert (Hlt : length times = length rs).
  { rewrite Htimes. unfold year_fractions. rewrite length_map. exact Hlen. }
  exists times, dfs, rs. repeat split; try assumption.
  - rewrite Hdfs. unfold discount_factors. rewrite length_zip_with. lia.
  - intros i Hi.
    destruct (lookup_lt_is_Some_2 rs i) as [r Hr]; [exact Hi|].
    destruct (lookup_lt_is_Some_2 times i) as [t Ht]; [lia|].
    exists r, t. repeat split; try assumption.
    rewrite Hdfs. unfold discount_factors. rewrite lookup_zip_with, Hr. cbn.
    rewrite Ht. reflexivity.
Qed.

End Proofs.

(** * The claims on the example of the specification *)

Lemma example_times_increasing : increasing example_times = true.
Proof.
  unfold example_times, year_fractions. cbn [map increasing].
  rewrite andb_true_r. apply bool_decide_eq_true. cbn. unfold example_yearFrac.
  replace (366 - 0)%Z with 366%Z by reflexivity.
  replace (731 - 0)%Z with 731%Z by reflexivity. lra.
Qed.

Lemma example_past_times_increasing : increasing example_past_times = true.
Proof.
  unfold example_past_times, year_fractions. cbn [map increasing].
  rewrite andb_true_r. apply bool_decide_eq_true. cbn. unfold example_yearFrac.
  replace (-365 - 0)%Z with (-365)%Z by reflexivity.
  replace (366 - 0)%Z with 366%Z by reflexivity. lra.
Qed.

Lemma example_construction :
  FinDiscountCurveZeros (VDate 0%Z) (VRef 0) (VRef 1) ANNUAL ACT_ACT_ISDA FLAT_FORWARDS
    example_store =
  (example_curve_store, inr (VRef 2)).
Proof.
  apply (constructor_returns (VDate 0%Z) (VRef 0) (VRef 1) ANNUAL ACT_ACT_ISDA
           FLAT_FORWARDS example_store example_times example_dfs).
  unfold construction.
  change (argument_check example_store (VDate 0%Z) (VRef 0) (VRef 1) ANNUAL ACT_ACT_ISDA
            FLAT_FORWARDS) with (@None exn).
  change (seq_len example_store (VRef 0)) with (Some 2).
  change (seq_len example_store (VRef 1)) with (Some 2).
  change (dates_of example_store (VRef 0)) with (Some [366; 731]%Z).
  change (nums_of example_store (VRef 1)) with (Some [2 / 100; 25 / 1000]%R).
  cbv beta iota zeta.
  change (year_fractions 0%Z [366; 731]%Z ACT_ACT_ISDA) with example_times.
  rewrite example_times_increasing. reflexivity.
Qed.

Lemma example_bump :
  bump (VRef 2) (1 / 100) example_patched_store = (example_shifted_store, inr (VRef 5)).
Proof.
  erewrite (bump_run example_patched_store 2 _ _ (VRef 0) (VRef 1)
              (VDate 0%Z) FLAT_FORWARDS [1; 2]%R [98 / 100; 95 / 100]%R (1 / 100));
    reflexivity.
Qed.

Lemma bump_on_constructed_curve_witness :
  FinDiscountCurveZeros (VDate 0%Z) (VRef 0) (VRef 1) ANNUAL ACT_ACT_ISDA FLAT_FORWARDS
    example_store = (example_curve_store, inr (VRef 2)) /\
  (bump (VRef 2) (1 / 100) example_curve_store).2 =
    inl (AttributeError "_discountFactors").
Proof.
  split; [exact example_construction|].
  apply (bump_on_constructed_curve (VDate 0%Z) (VRef 0) (VRef 1) ANNUAL ACT_ACT_ISDA
           FLAT_FORWARDS example_store).
  exact example_construction.
Defined.

Lemma zero_shift_on_constructed_curve_witness :
  FinDiscountCurveZeros (VDate 0%Z) (VRef 0) (VRef 1) ANNUAL ACT_ACT_ISDA FLAT_FORWARDS
    example_store = (example_curve_store, inr (VRef 2)) /\
  ((bump (VRef 2) 0 ≫= fun shifted => getDiscountFactor shifted 1) example_curve_store).2 =
    inl (AttributeError "_discountFactors").
Proof.
  split; [exact example_construction|].
  apply (zero_shift_on_constructed_curve (VDate 0%Z) (VRef 0) (VRef 1) ANNUAL
           ACT_ACT_ISDA FLAT_FORWARDS example_store).
  exact example_construction.
Defined.

Lemma validation_order_witness :
  argument_check example_store (VDate 0%Z) (VRef 0) (VRef 1) ANNUAL ACT_ACT_ISDA
    FLAT_FORWARDS = None /\
  dates_of example_store (VRef 0) = Some [366; 731]%Z /\
  nums_of example_store (VRef 1) = Some [2 / 100; 25 / 1000]%R /\
  (FinDiscountCurveZeros (VDate 0%Z) (VRef 0) (VRef 1) ANNUAL ACT_ACT_ISDA FLAT_FORWARDS
     example_store).2 = inr (VRef 2).
Proof.
  assert (Hchk : argument_check example_store (VDate 0%Z) (VRef 0) (VRef 1) ANNUAL
                   ACT_ACT_ISDA FLAT_FORWARDS = None) by reflexivity.
  assert (Hds : dates_of example_store (VRef 0) = Some [366; 731]%Z) by reflexivity.
  assert (Hrs : nums_of example_store (VRef 1) = Some [2 / 100; 25 / 1000]%R)
    by reflexivity.
  split; [exact Hchk|]. split; [exact Hds|]. split; [exact Hrs|].
  destruct (validation_order 0%Z (VRef 0) (VRef 1) ANNUAL ACT_ACT_ISDA FLAT_FORWARDS
              example_store [366; 731]%Z [2 / 100; 25 / 1000]%R
              Hchk Hds Hrs) as (_ & _ & _ & _ & _ & Hok & _).
  apply Hok; [cbn; lia|reflexivity|reflexivity|reflexivity|].
  exact example_times_increasing.
Defined.

(** C3, as stated, fails: no date at all and three dates for two rates are
    different violations, and both raise the same class of exception,
    [FinError], the library's general one; only the messages differ. *)
Lemma error_kinds_coincide :
  exists e1 e2,
    (FinDiscountCurveZeros (VDate 0%Z) (VRef 0) (VRef 1) ANNUAL ACT_ACT_ISDA FLAT_FORWARDS
       example_empty_store).2 = inl e1 /\
    (FinDiscountCurveZeros (VDate 0%Z) (VRef 0) (VRef 1) ANNUAL ACT_ACT_ISDA FLAT_FORWARDS
       example_mismatch_store).2 = inl e2 /\
    e1 <> e2 /\ exn_class e1 = "FinError" /\ exn_class e2 = "FinError".
Proof.
  exists (FinError "Dates has zero length"),
         (FinError "Dates and Rates are not the same length").
  split; [apply constructor_raises; reflexivity|].
  split; [apply constructor_raises; reflexivity|].
  split; [discriminate|]. split; reflexivity.
Qed.

Lemma constructed_curve_invariants_witness :
  FinDiscountCurveZeros (VDate 0%Z) (VRef 0) (VRef 1) ANNUAL ACT_ACT_ISDA FLAT_FORWARDS
    example_store = (example_curve_store, inr (VRef 2)) /\
  exists (times dfs : list R) (ds : list Z),
    field_nums example_curve_store (VRef 2) "_times" = Some times /\
    field_nums example_curve_store (VRef 2) "_dfValues" = Some dfs /\
    field_dates example_curve_store (VRef 2) "_zeroDates" = Some ds /\
    length times = length dfs /\ length dfs = length ds /\
    (forall i d, ds !! i = Some d -> times !! i = Some (yearFrac 0%Z d ACT_ACT_ISDA)) /\
    exists h'',
      _buildCurvePoints (VRef 2) example_curve_store = (h'', inr ()) /\
      field_nums h'' (VRef 2) "_dfValues" = Some dfs /\
      field h'' (VRef 2) "_dfValues" <> field example_curve_store (VRef 2) "_dfValues".
Proof.
  split; [exact example_construction|].
  destruct (constructed_curve_invariants (VDate 0%Z) (VRef 0) (VRef 1) ANNUAL ACT_ACT_ISDA
              FLAT_FORWARDS example_store example_curve_store (VRef 2)
              example_construction)
    as (vd0 & times & dfs & ds & rs & Hvd & Ht & Hd & Hzd & _ & Hlen & Hlen' & _ & _ & _
        & Hyf & _ & _ & _ & (h'' & Hrun & _ & Hd'' & _ & _ & _ & Hne) & _).
  injection Hvd as <-.
  exists times, dfs, ds. repeat (split; [assumption|]).
  exists h''. auto.
Defined.

(** C4, as stated, fails: with the first observation a year before the
    valuation date the constructor returns a curve, and its first time is
    negative. *)
Lemma first_time_can_be_negative :
  exists h' self (times : list R) (t0 : R),
    FinDiscountCurveZeros (VDate 0%Z) (VRef 0) (VRef 1) ANNUAL ACT_ACT_ISDA FLAT_FORWARDS
      example_past_store = (h', inr self) /\
    field_nums h' self "_times" = Some times /\
    times !! 0 = Some t0 /\ (t0 < 0)%R.
Proof.
  exists (new_curve example_past_store (VDate 0%Z) (VRef 0) (VRef 1) ANNUAL ACT_ACT_ISDA
            FLAT_FORWARDS example_past_times
            (discount_factors [2 / 100; 25 / 1000]%R example_past_times ANNUAL)),
         (VRef 2), example_past_times, (-365 / 365)%R.
  split.
  { apply (constructor_returns (VDate 0%Z) (VRef 0) (VRef 1) ANNUAL ACT_ACT_ISDA
             FLAT_FORWARDS example_past_store).
    unfold construction.
    change (argument_check example_past_store (VDate 0%Z) (VRef 0) (VRef 1) ANNUAL
              ACT_ACT_ISDA FLAT_FORWARDS) with (@None exn).
    change (seq_len example_past_store (VRef 0)) with (Some 2).
    change (seq_len example_past_store (VRef 1)) with (Some 2).
    change (dates_of example_past_store (VRef 0)) with (Some [-365; 366]%Z).
    change (nums_of example_past_store (VRef 1)) with (Some [2 / 100; 25 / 1000]%R).
    cbv beta iota zeta.
    change (year_fractions 0%Z [-365; 366]%Z ACT_ACT_ISDA) with example_past_times.
    rewrite example_past_times_increasing. reflexivity. }
  split; [reflexivity|]. split; [reflexivity|]. lra.
Qed.

Lemma discount_factor_at_zero_witness :
  FinDiscountCurveZeros (VDate 0%Z) (VRef 0) (VRef 1) ANNUAL ACT_ACT_ISDA FLAT_FORWARDS
    example_store = (example_curve_store, inr (VRef 2)) /\
  getDiscountFactor (VRef 2) 0 example_curve_store = (example_curve_store, inr 1%R).
Proof.
  split; [exact example_construction|].
  apply (discount_factor_at_zero (VDate 0%Z) (VRef 0) (VRef 1) ANNUAL ACT_ACT_ISDA
           FLAT_FORWARDS example_store).
  exact example_construction.
Defined.

Lemma bump_leaves_source_unchanged_witness :
  (bump (VRef 2) (1 / 100) example_patched_store).2 = inr (VRef 5) /\
  forall l c, example_patched_store !! l = Some c ->
    (bump (VRef 5) (2 / 100) (bump (VRef 2) (1 / 100) example_patched_store).1).1 !! l
      = Some c.
Proof.
  assert (Hr : (bump (VRef 2) (1 / 100) example_patched_store).2 = inr (VRef 5))
    by (rewrite example_bump; reflexivity).
  split; [exact Hr|]. intros l c.
  destruct (bump_leaves_source_unchanged (VRef 2) (1 / 100) example_patched_store)
    as (_ & Hshifted).
  destruct (Hshifted (VRef 5) Hr) as (_ & _ & _ & _ & Hagain).
  apply Hagain.
Defined.

Lemma rendering_of_constructed_curve_witness :
  FinDiscountCurveZeros (VDate 0%Z) (VRef 0) (VRef 1) ANNUAL ACT_ACT_ISDA FLAT_FORWARDS
    example_store = (example_curve_store, inr (VRef 2)) /\
  exists ds rs,
    __repr__ (VRef 2) example_curve_store =
      (example_curve_store,
       inr ("FinDiscountCurveZeros" +:+ newline +:+
            labelToString (VStr "DATES") (VStr "ZERO RATES") +:+
            observation_lines ds rs +:+
            labelToString (VStr "FREQUENCY") ANNUAL)).
Proof.
  split; [exact example_construction|].
  destruct (rendering_of_constructed_curve (VDate 0%Z) (VRef 0) (VRef 1) ANNUAL
              ACT_ACT_ISDA FLAT_FORWARDS example_store example_curve_store (VRef 2)
              example_construction) as (ds & rs & _ & _ & Hrepr).
  exists ds, rs. exact Hrepr.
Defined.

(** C8, as stated, fails: the rendering of the example is not the class
    name, the two observation lines and the frequency line; the header line
    stands between the class name and the observations. *)
Lemma rendering_has_header_line :
  exists s,
    (__repr__ (VRef 2) example_curve_store).2 = inr s /\
    s <> "FinDiscountCurveZeros" +:+ newline +:+
         observation_lines [366; 731]%Z [2 / 100; 25 / 1000]%R +:+
         labelToString (VStr "FREQUENCY") ANNUAL.
Proof.
  eexists. split.
  - erewrite (repr_run example_curve_store 2 _ _ (VRef 3) (VRef 0) (VRef 1) ANNUAL 2
                [366; 731]%Z [2 / 100; 25 / 1000]%R); reflexivity.
  - intros Heq. apply (f_equal String.length) in Heq. lazy in Heq. discriminate Heq.
Qed.

Lemma interpMethod_checked_by_argument_check_only_witness :
  dates_of example_store (VRef 0) = Some [366; 731]%Z /\
  nums_of example_store (VRef 1) = Some [2 / 100; 25 / 1000]%R /\
  length [366; 731]%Z <> 0 /\
  length [366; 731]%Z = length [2 / 100; 25 / 1000]%R /\
  in_enum "FinFrequencyTypes" (ANNUAL : pyval Z) = true /\
  in_enum "FinDayCountTypes" (ACT_ACT_ISDA : pyval Z) = true /\
  increasing (year_fractions 0%Z [366; 731]%Z ACT_ACT_ISDA) = true /\
  in_enum "FinInterpMethods" (VStr "cubic" : pyval Z) = false /\
  exists h',
    FinDiscountCurveZeros (VDate 0%Z) (VRef 0) (VRef 1) ANNUAL ACT_ACT_ISDA (VStr "cubic")
      example_store = (h', inr (VRef 2)) /\
    field h' (VRef 2) "_interpMethod" = Some (VStr "cubic").
Proof.
  assert (Hds : dates_of example_store (VRef 0) = Some [366; 731]%Z) by reflexivity.
  assert (Hrs : nums_of example_store (VRef 1) = Some [2 / 100; 25 / 1000]%R)
    by reflexivity.
  assert (Hn : length [366; 731]%Z <> 0) by (cbn; lia).
  assert (Hlen : length [366; 731]%Z = length [2 / 100; 25 / 1000]%R) by reflexivity.
  assert (Hf : in_enum "FinFrequencyTypes" (ANNUAL : pyval Z) = true) by reflexivity.
  assert (Hdc : in_enum "FinDayCountTypes" (ACT_ACT_ISDA : pyval Z) = true)
    by reflexivity.
  repeat (split; [assumption|]).
  split; [exact example_times_increasing|]. split; [reflexivity|].
  apply (interpMethod_checked_by_argument_check_only 0%Z (VRef 0) (VRef 1) ANNUAL
           ACT_ACT_ISDA (VStr "cubic") example_store [366; 731]%Z [2 / 100; 25 / 1000]%R
           Hds Hrs Hn Hlen Hf Hdc example_times_increasing).
Defined.

(** C9, as stated, fails when the argument-type check holds [interpMethod]
    to its annotation: the constructor then raises for a value outside
    [FinInterpMethods], on arguments for which it returns with the default
    method. *)
Lemma unlisted_interpMethod_is_rejected :
  (@FinDiscountCurveZeros Z strict_collaborators
     (VDate 0%Z) (VRef 0) (VRef 1) ANNUAL ACT_ACT_ISDA (VStr "cubic") example_store).2 =
    inl (FinError "Argument Type Error") /\
  (@FinDiscountCurveZeros Z strict_collaborators
     (VDate 0%Z) (VRef 0) (VRef 1) ANNUAL ACT_ACT_ISDA FLAT_FORWARDS example_store).2 =
    inr (VRef 2).
Proof.
  split.
  - apply (@constructor_raises Z strict_collaborators). reflexivity.
  - rewrite (@constructor_outcome Z strict_collaborators). unfold construction.
    change (@argument_check Z strict_collaborators example_store (VDate 0%Z) (VRef 0)
              (VRef 1) ANNUAL ACT_ACT_ISDA FLAT_FORWARDS) with (@None exn).
    change (seq_len example_store (VRef 0)) with (Some 2).
    change (seq_len example_store (VRef 1)) with (Some 2).
    change (dates_of example_store (VRef 0)) with (Some [366; 731]%Z).
    change (nums_of example_store (VRef 1)) with (Some [2 / 100; 25 / 1000]%R).
    cbv beta iota zeta.
    change (@year_fractions Z strict_collaborators 0%Z [366; 731]%Z ACT_ACT_ISDA)
      with example_times.
    rewrite example_times_increasing. reflexivity.
Qed.

Lemma bump_creates_no_curve_witness :
  FinDiscountCurveZeros (VDate 0%Z) (VRef 0) (VRef 1) ANNUAL ACT_ACT_ISDA FLAT_FORWARDS
    example_store = (example_curve_store, inr (VRef 2)) /\
  bump (VRef 2) (1 / 100) example_curve_store =
    (example_curve_store ++ [CNums example_times],
     inl (AttributeError "_discountFactors")).
Proof.
  split; [exact example_construction|].
  destruct (bump_creates_no_curve (VDate 0%Z) (VRef 0) (VRef 1) ANNUAL ACT_ACT_ISDA
              FLAT_FORWARDS example_store example_curve_store (VRef 2) (1 / 100)
              example_construction) as (times & Ht & Hrun & _).
  assert (Ht' : field_nums example_curve_store (VRef 2) "_times" = Some example_times)
    by reflexivity.
  rewrite Ht' in Ht. injection Ht as <-. exact Hrun.
Defined.

(** * The further properties on the examples *)

Lemma discount_factors_from_converter_witness :
  FinDiscountCurveZeros (VDate 0%Z) (VRef 0) (VRef 1) ANNUAL ACT_ACT_ISDA FLAT_FORWARDS
    example_store = (example_curve_store, inr (VRef 2)) /\
  exists (dfs rs : list R),
    field_nums example_curve_store (VRef 2) "_dfValues" = Some dfs /\
    field_nums example_curve_store (VRef 2) "_zeroRates" = Some rs /\
    length dfs = length rs.
Proof.
  split; [exact example_construction|].
  destruct (discount_factors_from_converter (VDate 0%Z) (VRef 0) (VRef 1) ANNUAL
              ACT_ACT_ISDA FLAT_FORWARDS example_store example_curve_store (VRef 2)
              example_construction) as (times & dfs & rs & _ & Hd & Hr & Hlen & _).
  exists dfs, rs. auto.
Defined.

Lemma retained_inputs_are_shared_witness :
  FinDiscountCurveZeros (VDate 0%Z) (VRef 0) (VRef 1) ANNUAL ACT_ACT_ISDA FLAT_FORWARDS
    example_store = (example_curve_store, inr (VRef 2)) /\
  field example_curve_store (VRef 2) "_zeroDates" = Some (VRef 0) /\
  field example_curve_store (VRef 2) "_zeroRates" = Some (VRef 1).
Proof.
  split; [exact example_construction|].
  destruct (retained_inputs_are_shared (VDate 0%Z) (VRef 0) (VRef 1) ANNUAL ACT_ACT_ISDA
              FLAT_FORWARDS example_store example_curve_store (VRef 2)
              example_construction) as (Hd & Hr & _).
  auto.
Defined.

Lemma rate_update_after_construction_witness :
  FinDiscountCurveZeros (VDate 0%Z) (VRef 0) (VRef 1) ANNUAL ACT_ACT_ISDA FLAT_FORWARDS
    example_store = (example_curve_store, inr (VRef 2)) /\
  field_dates example_curve_store (VRef 2) "_zeroDates" = Some [366; 731]%Z /\
  field_nums example_curve_store (VRef 2) "_zeroRates" = Some [2 / 100; 25 / 1000]%R /\
  0 < length [2 / 100; 25 / 1000]%R /\
  exists h'',
    setitem (VRef 1) 0 (3 / 100) example_curve_store = (h'', inr ()) /\
    field_nums h'' (VRef 2) "_zeroRates" = Some [3 / 100; 25 / 1000]%R /\
    field_nums h'' (VRef 2) "_dfValues" =
      field_nums example_curve_store (VRef 2) "_dfValues".
Proof.
  assert (Hd : field_dates example_curve_store (VRef 2) "_zeroDates" = Some [366; 731]%Z)
    by reflexivity.
  assert (Hr : field_nums example_curve_store (VRef 2) "_zeroRates"
               = Some [2 / 100; 25 / 1000]%R) by reflexivity.
  assert (Hi : 0 < length [2 / 100; 25 / 1000]%R) by (cbn; lia).
  split; [exact example_construction|]. split; [exact Hd|]. split; [exact Hr|].
  split; [exact Hi|].
  destruct (rate_update_after_construction (VDate 0%Z) (VRef 0) (VRef 1) ANNUAL
              ACT_ACT_ISDA FLAT_FORWARDS example_store example_curve_store (VRef 2)
              [366; 731]%Z [2 / 100; 25 / 1000]%R 0 (3 / 100)
              example_construction Hd Hr Hi) as (h'' & Hset & Hrates & _ & Hdfs & _).
  exists h''. auto.
Defined.

Lemma buildCurvePoints_again_witness :
  FinDiscountCurveZeros (VDate 0%Z) (VRef 0) (VRef 1) ANNUAL ACT_ACT_ISDA FLAT_FORWARDS
    example_store = (example_curve_store, inr (VRef 2)) /\
  field example_curve_store (VRef 2) "_dfValues" = Some (VRef 4) /\
  example_curve_store !! 4 = Some (CNums example_dfs) /\
  exists h'' ldf',
    _buildCurvePoints (VRef 2) example_curve_store = (h'', inr ()) /\
    ldf' <> 4 /\ h'' !! ldf' = Some (CNums example_dfs).
Proof.
  assert (Hf : field example_curve_store (VRef 2) "_dfValues" = Some (VRef 4))
    by reflexivity.
  assert (Hcell : example_curve_store !! 4 = Some (CNums example_dfs)) by reflexivity.
  split; [exact example_construction|]. split; [exact Hf|]. split; [exact Hcell|].
  destruct (buildCurvePoints_again (VDate 0%Z) (VRef 0) (VRef 1) ANNUAL ACT_ACT_ISDA
              FLAT_FORWARDS example_store example_curve_store (VRef 2) example_dfs 4
              example_construction Hf Hcell) as (h'' & ldf' & Hrun & _ & Hne & Hnew & _).
  exists h'', ldf'. auto.
Defined.

Lemma rebuild_after_rate_update_witness :
  FinDiscountCurveZeros (VDate 0%Z) (VRef 0) (VRef 1) ANNUAL ACT_ACT_ISDA FLAT_FORWARDS
    example_store = (example_curve_store, inr (VRef 2)) /\
  field_nums example_curve_store (VRef 2) "_times" = Some example_times /\
  field_nums example_curve_store (VRef 2) "_zeroRates" = Some [2 / 100; 25 / 1000]%R /\
  0 < length [2 / 100; 25 / 1000]%R /\
  exists h1 h2,
    setitem (VRef 1) 0 (3 / 100) example_curve_store = (h1, inr ()) /\
    _buildCurvePoints (VRef 2) h1 = (h2, inr ()) /\
    field_nums h2 (VRef 2) "_dfValues" =
      Some (discount_factors [3 / 100; 25 / 1000]%R example_times ANNUAL).
Proof.
  assert (Ht : field_nums example_curve_store (VRef 2) "_times" = Some example_times)
    by reflexivity.
  assert (Hr : field_nums example_curve_store (VRef 2) "_zeroRates"
               = Some [2 / 100; 25 / 1000]%R) by reflexivity.
  assert (Hi : 0 < length [2 / 100; 25 / 1000]%R) by (cbn; lia).
  split; [exact example_construction|]. split; [exact Ht|]. split; [exact Hr|].
  split; [exact Hi|].
  destruct (rebuild_after_rate_update (VDate 0%Z) (VRef 0) (VRef 1) ANNUAL
              ACT_ACT_ISDA FLAT_FORWARDS example_store example_curve_store (VRef 2)
              example_times [2 / 100; 25 / 1000]%R 0 (3 / 100)
              example_construction Ht Hr Hi) as (h1 & h2 & Hset & Hrun & Hdfs & _).
  exists h1, h2. auto.
Defined.

Lemma bump_with_discount_factors_witness :
  field_nums example_patched_store (VRef 2) "_times" = Some [1; 2]%R /\
  field_nums example_patched_store (VRef 2) "_discountFactors"
    = Some [98 / 100; 95 / 100]%R /\
  length [1; 2]%R <= length [98 / 100; 95 / 100]%R /\
  field example_patched_store (VRef 2) "_valuationDate" = Some (VDate 0%Z) /\
  field example_patched_store (VRef 2) "_interpMethod" = Some FLAT_FORWARDS /\
  exists h' dfs',
    bump (VRef 2) (1 / 100) example_patched_store = (h', inr (VRef 5)) /\
    field h' (VRef 5) "_times" = Some (VRef 3) /\
    field h' (VRef 5) "_dfValues" = Some (VRef 4) /\
    h' !! 3 = Some (CNums [1; 2]%R) /\
    h' !! 4 = Some (CNums dfs') /\
    dfs' !! 0 = Some (98 / 100 * exp (- (1 / 100) * 1))%R.
Proof.
  assert (Ht : field_nums example_patched_store (VRef 2) "_times" = Some [1; 2]%R)
    by reflexivity.
  assert (Hd : field_nums example_patched_store (VRef 2) "_discountFactors"
               = Some [98 / 100; 95 / 100]%R) by reflexivity.
  assert (Hlen : length [1; 2]%R <= length [98 / 100; 95 / 100]%R) by (cbn; lia).
  assert (Hvd : field example_patched_store (VRef 2) "_valuationDate" = Some (VDate 0%Z))
    by reflexivity.
  assert (Him : field example_patched_store (VRef 2) "_interpMethod" = Some FLAT_FORWARDS)
    by reflexivity.
  repeat (split; [assumption|]).
  destruct (bump_with_discount_factors (VRef 2) (1 / 100) example_patched_store
              [1; 2]%R [98 / 100; 95 / 100]%R (VDate 0%Z) FLAT_FORWARDS
              Ht Hd Hlen Hvd Him)
    as (h' & dfs' & Hrun & _ & Hft & Hfd & _ & _ & Hc3 & Hcell & _ & Hpt & _).
  exists h', dfs'. split; [exact Hrun|]. split; [exact Hft|]. split; [exact Hfd|].
  split; [exact Hc3|]. split; [exact Hcell|].
  apply (Hpt 0 (98 / 100)%R 1%R); reflexivity.
Defined.

Lemma bump_zero_shift_with_discount_factors_witness :
  field_nums example_patched_store (VRef 2) "_times" = Some [1; 2]%R /\
  field_nums example_patched_store (VRef 2) "_discountFactors"
    = Some [98 / 100; 95 / 100]%R /\
  length [1; 2]%R <= length [98 / 100; 95 / 100]%R /\
  field example_patched_store (VRef 2) "_valuationDate" = Some (VDate 0%Z) /\
  field example_patched_store (VRef 2) "_interpMethod" = Some FLAT_FORWARDS /\
  exists h',
    bump (VRef 2) 0 example_patched_store = (h', inr (VRef 5)) /\
    h' !! 4 = Some (CNums [98 / 100; 95 / 100]%R).
Proof.
  assert (Ht : field_nums example_patched_store (VRef 2) "_times" = Some [1; 2]%R)
    by reflexivity.
  assert (Hd : field_nums example_patched_store (VRef 2) "_discountFactors"
               = Some [98 / 100; 95 / 100]%R) by reflexivity.
  assert (Hlen : length [1; 2]%R <= length [98 / 100; 95 / 100]%R) by (cbn; lia).
  assert (Hvd : field example_patched_store (VRef 2) "_valuationDate" = Some (VDate 0%Z))
    by reflexivity.
  assert (Him : field example_patched_store (VRef 2) "_interpMethod" = Some FLAT_FORWARDS)
    by reflexivity.
  repeat (split; [assumption|]).
  destruct (bump_zero_shift_with_discount_factors (VRef 2) example_patched_store
              [1; 2]%R [98 / 100; 95 / 100]%R (VDate 0%Z) FLAT_FORWARDS
              Ht Hd Hlen Hvd Him) as (h' & Hrun & Hcell & _).
  exists h'. auto.
Defined.

Lemma bump_with_too_few_discount_factors_witness :
  field_nums example_short_store (VRef 2) "_times" = Some [1; 2]%R /\
  field_nums example_short_store (VRef 2) "_discountFactors" = Some [98 / 100]%R /\
  length [98 / 100]%R < length [1; 2]%R /\
  (bump (VRef 2) (1 / 100) example_short_store).2 = inl IndexError.
Proof.
  assert (Ht : field_nums example_short_store (VRef 2) "_times" = Some [1; 2]%R)
    by reflexivity.
  assert (Hd : field_nums example_short_store (VRef 2) "_discountFactors"
               = Some [98 / 100]%R) by reflexivity.
  assert (Hlen : length [98 / 100]%R < length [1; 2]%R) by (cbn; lia).
  repeat (split; [assumption|]).
  exact (bump_with_too_few_discount_factors (VRef 2) (1 / 100) example_short_store
           [1; 2]%R [98 / 100]%R Ht Hd Hlen).
Defined.

Lemma bump_after_assigning_discount_factors_witness :
  FinDiscountCurveZeros (VDate 0%Z) (VRef 0) (VRef 1) ANNUAL ACT_ACT_ISDA FLAT_FORWARDS
    example_store = (example_curve_store, inr (VRef 2)) /\
  field_nums example_curve_store (VRef 2) "_times" = Some example_times /\
  field_nums example_curve_store (VRef 2) "_zeroRates" = Some [2 / 100; 25 / 1000]%R /\
  exists (h1 h2 : list (cell Z)),
    (getattr (VRef 2) "_dfValues" ≫= setattr (VRef 2) "_discountFactors")
      example_curve_store = (h1, inr ()) /\
    (bump (VRef 2) (1 / 100) h1).2 = inr (VRef (length h1 + 2)) /\
    field_nums h2 (VRef 2) "_dfValues" =
      field_nums example_curve_store (VRef 2) "_dfValues".
Proof.
  assert (Ht : field_nums example_curve_store (VRef 2) "_times" = Some example_times)
    by reflexivity.
  assert (Hr : field_nums example_curve_store (VRef 2) "_zeroRates"
               = Some [2 / 100; 25 / 1000]%R) by reflexivity.
  split; [exact example_construction|]. split; [exact Ht|]. split; [exact Hr|].
  destruct (bump_after_assigning_discount_factors (VDate 0%Z) (VRef 0) (VRef 1) ANNUAL
              ACT_ACT_ISDA FLAT_FORWARDS example_store example_curve_store (VRef 2)
              (1 / 100) example_times [2 / 100; 25 / 1000]%R
              example_construction Ht Hr)
    as (h1 & h2 & dfs' & Hset & Hrun & _ & _ & _ & Hsame).
  exists h1, h2. split; [exact Hset|]. split; [rewrite Hrun; reflexivity|exact Hsame].
Defined.

Lemma argument_check_comes_first_witness :
  @argument_check Z strict_collaborators example_empty_store (VDate 0%Z) (VRef 0)
    (VRef 1) ANNUAL ACT_ACT_ISDA (VStr "cubic") = Some (FinError "Argument Type Error") /\
  (@FinDiscountCurveZeros Z strict_collaborators (VDate 0%Z) (VRef 0) (VRef 1) ANNUAL
     ACT_ACT_ISDA (VStr "cubic") example_empty_store).2 =
    inl (FinError "Argument Type Error").
Proof.
  assert (Hchk : @argument_check Z strict_collaborators example_empty_store (VDate 0%Z)
                   (VRef 0) (VRef 1) ANNUAL ACT_ACT_ISDA (VStr "cubic")
                 = Some (FinError "Argument Type Error")) by reflexivity.
  split; [exact Hchk|].
  exact (@argument_check_comes_first Z strict_collaborators (VDate 0%Z) (VRef 0) (VRef 1)
           ANNUAL ACT_ACT_ISDA (VStr "cubic") example_empty_store _ Hchk).
Defined.

Lemma rendering_counts_times_witness :
  type_name (VRef 2) example_grown_store =
    (example_grown_store, inr "FinDiscountCurveZeros") /\
  field example_grown_store (VRef 2) "_times" = Some (VRef 3) /\
  seq_len example_grown_store (VRef 3) = Some 2 /\
  field_dates example_grown_store (VRef 2) "_zeroDates" = Some [366; 731; 1096]%Z /\
  field_nums example_grown_store (VRef 2) "_zeroRates"
    = Some [2 / 100; 25 / 1000; 3 / 100]%R /\
  field example_grown_store (VRef 2) "_frequencyType" = Some ANNUAL /\
  __repr__ (VRef 2) example_grown_store =
    (example_grown_store,
     inr ("FinDiscountCurveZeros" +:+ newline +:+
          labelToString (VStr "DATES") (VStr "ZERO RATES") +:+
          observation_lines [366; 731]%Z [2 / 100; 25 / 1000]%R +:+
          labelToString (VStr "FREQUENCY") ANNUAL)).
Proof.
  assert (Hty : type_name (VRef 2) example_grown_store =
                (example_grown_store, inr "FinDiscountCurveZeros")) by reflexivity.
  assert (Ht : field example_grown_store (VRef 2) "_times" = Some (VRef 3)) by reflexivity.
  assert (Hn : seq_len example_grown_store (VRef 3) = Some 2) by reflexivity.
  assert (Hd : field_dates example_grown_store (VRef 2) "_zeroDates"
               = Some [366; 731; 1096]%Z) by reflexivity.
  assert (Hr : field_nums example_grown_store (VRef 2) "_zeroRates"
               = Some [2 / 100; 25 / 1000; 3 / 100]%R) by reflexivity.
  assert (Hf : field example_grown_store (VRef 2) "_frequencyType" = Some ANNUAL)
    by reflexivity.
  repeat (split; [assumption|]).
  apply (rendering_counts_times (VRef 2) example_grown_store "FinDiscountCurveZeros"
           (VRef 3) 2 [366; 731; 1096]%Z [2 / 100; 25 / 1000; 3 / 100]%R ANNUAL
           Hty Ht Hn Hd Hr Hf); cbn; lia.
Defined.

Lemma rendering_with_short_lists_witness :
  field example_shrunk_store (VRef 2) "_times" = Some (VRef 3) /\
  seq_len example_shrunk_store (VRef 3) = Some 2 /\
  field_dates example_shrunk_store (VRef 2) "_zeroDates" = Some [366]%Z /\
  field_nums example_shrunk_store (VRef 2) "_zeroRates" = Some [2 / 100]%R /\
  (length [366]%Z < 2 \/ length [2 / 100]%R < 2) /\
  (__repr__ (VRef 2) example_shrunk_store).2 = inl IndexError.
Proof.
  assert (Ht : field example_shrunk_store (VRef 2) "_times" = Some (VRef 3))
    by reflexivity.
  assert (Hn : seq_len example_shrunk_store (VRef 3) = Some 2) by reflexivity.
  assert (Hd : field_dates example_shrunk_store (VRef 2) "_zeroDates" = Some [366]%Z)
    by reflexivity.
  assert (Hr : field_nums example_shrunk_store (VRef 2) "_zeroRates" = Some [2 / 100]%R)
    by reflexivity.
  assert (Hs : length [366]%Z < 2 \/ length [2 / 100]%R < 2) by (left; cbn; lia).
  repeat (split; [assumption|]).
  exact (rendering_with_short_lists (VRef 2) example_shrunk_store (VRef 3) 2 [366]%Z
           [2 / 100]%R Ht Hn Hd Hr Hs).
Defined.

Lemma returned_curve_was_validated_witness :
  FinDiscountCurveZeros (VDate 0%Z) (VRef 0) (VRef 1) ANNUAL ACT_ACT_ISDA FLAT_FORWARDS
    example_store = (example_curve_store, inr (VRef 2)) /\
  in_enum "FinFrequencyTypes" (ANNUAL : pyval Z) = true /\
  exists ds, dates_of example_store (VRef 0) = Some ds /\ length ds <> 0.
Proof.
  split; [exact example_construction|].
  destruct (returned_curve_was_validated (VDate 0%Z) (VRef 0) (VRef 1) ANNUAL ACT_ACT_ISDA
              FLAT_FORWARDS example_store example_curve_store (VRef 2)
              example_construction)
    as (_ & vd0 & ds & rs & _ & Hds & _ & Hn & _ & Hf & _).
  split; [exact Hf|]. exists ds. auto.
Defined.

Lemma rates_are_not_validated_witness :
  example_store !! 1 = Some (CNums [2 / 100; 25 / 1000]%R) /\
  length [-5; 7]%R = length [2 / 100; 25 / 1000]%R /\
  argument_check example_store (VDate 0%Z) (VRef 0) (VRef 1) ANNUAL ACT_ACT_ISDA
    FLAT_FORWARDS = None /\
  argument_check (<[1 := CNums [-5; 7]%R]> example_store) (VDate 0%Z) (VRef 0) (VRef 1)
    ANNUAL ACT_ACT_ISDA FLAT_FORWARDS = None /\
  (FinDiscountCurveZeros (VDate 0%Z) (VRef 0) (VRef 1) ANNUAL ACT_ACT_ISDA FLAT_FORWARDS
     (<[1 := CNums [-5; 7]%R]> example_store)).2 =
  (FinDiscountCurveZeros (VDate 0%Z) (VRef 0) (VRef 1) ANNUAL ACT_ACT_ISDA FLAT_FORWARDS
     example_store).2.
Proof.
  assert (Hl : example_store !! 1 = Some (CNums [2 / 100; 25 / 1000]%R)) by reflexivity.
  assert (Hlen : length [-5; 7]%R = length [2 / 100; 25 / 1000]%R) by reflexivity.
  assert (Hchk : argument_check example_store (VDate 0%Z) (VRef 0) (VRef 1) ANNUAL
                   ACT_ACT_ISDA FLAT_FORWARDS = None) by reflexivity.
  assert (Hchk' : argument_check (<[1 := CNums [-5; 7]%R]> example_store) (VDate 0%Z)
                    (VRef 0) (VRef 1) ANNUAL ACT_ACT_ISDA FLAT_FORWARDS = None)
    by reflexivity.
  repeat (split; [assumption|]).
  exact (rates_are_not_validated (VDate 0%Z) (VRef 0) 1 ANNUAL ACT_ACT_ISDA FLAT_FORWARDS
           example_store [2 / 100; 25 / 1000]%R [-5; 7]%R Hl Hlen Hchk Hchk').
Defined.
